(** * go-toolkits: the transaction helper of package [sql] and the logger
      builder of package [log]

    A shallow embedding of [src/sql/db.go].  The file holds two Go packages:
    [sql] (lines 1-148: [Open], [Inject], [Transaction], [TransactionCtx])
    and [log] (lines 150-408: [New], [Init], [getDir], [ParseLevel], ...).
    Each package is a module below; module [Go] holds what both share: Go's
    [error] values, the dynamic values a panic carries, and the outcome of a
    call that may panic. *)

From stdpp Require Import base strings list gmap pretty.
From Stdlib Require Import ZArith Ascii.

Local Open Scope Z_scope.

(** ** Go values and the run-time system *)

Module Go.

Inductive Errno : Type := ENOENT | EACCES | ENOTDIR | EIO.

(** Non-nil values of the interface type [error]. *)
Inductive errval : Type :=
| ErrorString (msg : string)             (* errors.New, driver errors *)
| Fundamental (msg : string)             (* github.com/pkg/errors: Errorf *)
| PathError (op path : string) (e : Errno).  (* *os.PathError *)

(** The interface type [error]; [None] is [nil]. *)
Definition error : Type := option errval.

Definition errno_text (e : Errno) : string :=
  match e with
  | ENOENT => "no such file or directory"
  | EACCES => "permission denied"
  | ENOTDIR => "not a directory"
  | EIO => "input/output error"
  end.

(** The method [Error()]. *)
Definition Error (e : errval) : string :=
  match e with
  | ErrorString msg => msg
  | Fundamental msg => msg
  | PathError op path e => op +:+ " " +:+ path +:+ ": " +:+ errno_text e
  end.

(** Values of type [interface{}], as handed to [panic] and returned by
    [recover]. *)
Inductive any : Type :=
| nil_any
| of_string (s : string)
| of_error (e : errval)
| of_int (z : Z)
| PanicNilError.                         (* *runtime.PanicNilError *)

Definition is_nil (v : any) : bool :=
  match v with nil_any => true | _ => false end.

(** [fmt]'s rendering of a value under the verb [%v]. *)
Definition Sprint_v (v : any) : string :=
  match v with
  | nil_any => "<nil>"
  | of_string s => s
  | of_error e => Error e
  | of_int z => pretty z
  | PanicNilError => "panic called with nil argument (obsolete)"
  end.

(** How a call ends: it returns a value, or it panics with the argument
    that was given to [panic]. *)
Inductive outcome (A : Type) : Type :=
| Normal (a : A)
| Panic (v : any).
Global Arguments Normal {A} a.
Global Arguments Panic {A} v.

(** The value a panic carries to [recover].  The language specification
    ("Handling panics") guarantees it is not nil: [panic(nil)] is carried
    as a [*runtime.PanicNilError]. *)
Definition panic_value (v : any) : any :=
  if is_nil v then PanicNilError else v.

(** [recover()], called directly by a deferred function.  [p] is the
    state of the goroutine: [Some v] while it is panicking with [v].
    The result is the value returned and the new state: the panic, when
    there is one, stops. *)
Definition recover (p : option any) : any * option any :=
  match p with
  | Some v => (panic_value v, None)
  | None => (nil_any, None)
  end.

(** [runtime.Stack(buf, false)]: writes the trace of the calling goroutine
    into [buf], cut at [len(buf)] bytes, and returns the number of bytes
    written.  [goroutine] is the full text of the trace; the result is what
    [buf[:n]] holds. *)
Definition runtime_Stack (goroutine : string) (buflen : nat) : string :=
  String.substring 0 (Nat.min buflen (String.length goroutine)) goroutine.

(** The line feed, [\n] in a Go string literal. *)
Definition newline : string := String (Ascii.ascii_of_nat 10) "".

(** [strings.Contains]. *)
Definition Contains (s sub : string) : Prop :=
  ∃ pre post, s = pre +:+ sub +:+ post.

End Go.

(** ** Package sql *)

Module Sql.
Import Go.

(** [time.Duration]: nanoseconds in an int64. *)
Definition Duration : Type := Z.

(** [context.Context], built from [context.Background()] by the
    constructors of package [context]. *)
Inductive Context : Type :=
| Background
| WithCancel (parent : Context)
| WithDeadline (parent : Context) (t : Z)
| WithTimeout (parent : Context) (d : Duration)
| WithValue (parent : Context) (key val : string).

(** The second result of [ctx.Deadline()]: whether a deadline is set. *)
Fixpoint Deadline_ok (ctx : Context) : bool :=
  match ctx with
  | Background => false
  | WithCancel p => Deadline_ok p
  | WithDeadline _ _ => true
  | WithTimeout _ _ => true
  | WithValue p _ _ => Deadline_ok p
  end.

Record Config : Type := {
  Debug : bool;
  Dialect : string;
  URL : string;
  MaxOpenConns : Z;
  MaxIdleConns : Z;
  ConnMaxLifetime : Duration;
  TransTimeout : Duration
}.

(** The pool [*sql.DB] behind a gorm handle; [None] is the driver's
    default for a setting never made. *)
Record SqlDB : Type := {
  maxOpen : option Z;
  maxIdle : option Z;
  maxLifetime : option Duration
}.

(** [*gorm.DB]. [txContext] is [Some ctx] on a handle returned by
    [BeginTx(ctx, _)]. *)
Record GormDB : Type := {
  pool : SqlDB;
  singularTable : bool;
  logMode : bool;
  txContext : option Context
}.

Record GoquDatabase : Type := {
  goqu_dialect : string;
  goqu_db : SqlDB
}.

Record DataBase : Type := {
  DB : GormDB;
  cfg : Config;
  goqu : GoquDatabase
}.

Definition SingularTable (enable : bool) (db : GormDB) : GormDB :=
  {| pool := pool db; singularTable := enable;
     logMode := logMode db; txContext := txContext db |}.

Definition LogMode (enable : bool) (db : GormDB) : GormDB :=
  {| pool := pool db; singularTable := singularTable db;
     logMode := enable; txContext := txContext db |}.

Definition with_pool (f : SqlDB → SqlDB) (db : GormDB) : GormDB :=
  {| pool := f (pool db); singularTable := singularTable db;
     logMode := logMode db; txContext := txContext db |}.

Definition SetMaxOpenConns (n : Z) (p : SqlDB) : SqlDB :=
  {| maxOpen := Some n; maxIdle := maxIdle p; maxLifetime := maxLifetime p |}.

Definition SetMaxIdleConns (n : Z) (p : SqlDB) : SqlDB :=
  {| maxOpen := maxOpen p; maxIdle := Some n; maxLifetime := maxLifetime p |}.

Definition SetConnMaxLifetime (d : Duration) (p : SqlDB) : SqlDB :=
  {| maxOpen := maxOpen p; maxIdle := maxIdle p; maxLifetime := Some d |}.

(** [gorm.Open(dialect, url)], the driver's answer: a handle and an error;
    the handle means nothing when the error is not nil. *)
Definition gorm_Open_t : Type := string → string → GormDB * error.

(** [Open], lines 54-82. *)
Definition Open (gorm_Open : gorm_Open_t) (cfg : Config)
  : option DataBase * error :=
  let '(db, err) := gorm_Open (Dialect cfg) (URL cfg) in
  match err with
  | Some e => (None, Some e)
  | None =>
      let db := SingularTable true db in
      let db := if Debug cfg then LogMode true db else db in
      let db := if bool_decide (MaxOpenConns cfg ≠ 0)
                then with_pool (SetMaxOpenConns (MaxOpenConns cfg)) db
                else db in
      let db := if bool_decide (MaxIdleConns cfg ≠ 0)
                then with_pool (SetMaxIdleConns (MaxIdleConns cfg)) db
                else db in
      let db := if bool_decide (ConnMaxLifetime cfg ≠ 0)
                then with_pool (SetConnMaxLifetime (ConnMaxLifetime cfg)) db
                else db in
      (Some {| DB := db; cfg := cfg;
               goqu := {| goqu_dialect := Dialect cfg; goqu_db := pool db |} |},
       None)
  end.

(** The package-level variable [DefaultDB]. *)
Record globals : Type := { DefaultDB : option DataBase }.

(** [Inject], lines 45-51.  The assignment to [DefaultDB] is made before
    the error is looked at. *)
Definition Inject (gorm_Open : gorm_Open_t) (cfg : Config) (g : globals)
  : outcome unit * globals :=
  let '(db, err) := Open gorm_Open cfg in
  let g := {| DefaultDB := db |} in
  match err with
  | Some e => (Panic (of_error e), g)
  | None => (Normal (), g)
  end.

(** *** Transactions

    [S] is the state of the connection pool and of the database behind it.
    The handle's methods [BeginTx], [Rollback] and [Commit] belong to gorm;
    they act on [S], and [Rollback] and [Commit] may panic.  A unit of
    work gets the transaction handle, acts on [S], and returns an error or
    panics. *)
Section Transaction.
Context {S : Type}.

Record Driver : Type := {
  gorm_BeginTx : GormDB → Context → S → GormDB * S;
  gorm_Rollback : GormDB → S → outcome unit * S;
  (* the field [Error] of the handle that [Commit] returns *)
  gorm_Commit : GormDB → S → outcome error * S
}.

Definition UnitOfWork : Type := GormDB → S → outcome error * S.

(** What [TransactionCtx] itself does, in order. *)
Inductive event : Type :=
| EvWithTimeout (parent : Context) (d : Duration)
| EvBeginTx (ctx : Context)
| EvUnitOfWork (tx : GormDB)
| EvRollback (tx : GormDB)
| EvCommit (tx : GormDB)
| EvCancel (ctx : Context).

Record world : Type := { drv : S; trace : list event }.

Definition emit (e : event) (w : world) : world :=
  {| drv := drv w; trace := trace w ++ [e] |}.

(** A deferred call: it sees whether the goroutine is panicking, and
    the named result [err] of the function that deferred it. *)
Definition deferred : Type :=
  option any → error → world → option any * error * world.

(** The frame of a running function with the named result [err]; the
    deferred calls are kept last-registered first. *)
Record frame : Type := { err : error; defers : list deferred }.

(** A statement or expression either yields a value and goes on, or
    executes [return], or panics. *)
Inductive result (A : Type) : Type :=
| Val (a : A)
| Ret
| Pan (v : any).
Global Arguments Val {A} a.
Global Arguments Ret {A}.
Global Arguments Pan {A} v.

Definition go (A : Type) : Type := frame → world → result A * frame * world.

Global Instance go_ret : MRet go := λ A a fr w, (Val a, fr, w).
Global Instance go_bind : MBind go := λ A B k m fr w,
  match m fr w with
  | (Val a, fr', w') => k a fr' w'
  | (Ret, fr', w') => (Ret, fr', w')
  | (Pan v, fr', w') => (Pan v, fr', w')
  end.

(** [return] with no operands: the named result is what is returned. *)
Definition return_ : go unit := λ fr w, (Ret, fr, w).

(** [err = e]. *)
Definition set_err (e : error) : go unit :=
  λ fr w, (Val (), {| err := e; defers := defers fr |}, w).

(** [defer d]. *)
Definition defer (d : deferred) : go unit :=
  λ fr w, (Val (), {| err := err fr; defers := d :: defers fr |}, w).

(** A call into gorm or into the unit of work, after [ev] is logged. *)
Definition call {A} (ev : event) (op : S → outcome A * S) : go A :=
  λ fr w,
    let w := emit ev w in
    match op (drv w) with
    | (Normal a, s) => (Val a, fr, {| drv := s; trace := trace w |})
    | (Panic v, s) => (Pan v, fr, {| drv := s; trace := trace w |})
    end.

Fixpoint run_defers (ds : list deferred) (p : option any) (e : error)
    (w : world) : option any * error * world :=
  match ds with
  | [] => (p, e, w)
  | d :: ds' => let '(p', e', w') := d p e w in run_defers ds' p' e' w'
  end.

(** A call of a function [func (...) (err error) { body }]: the body
    runs in a fresh frame, then the deferred calls run, the last
    registered first; the call returns [err], or panics when a panic
    is still in flight. *)
Definition func (body : go unit) (w : world) : outcome error * world :=
  let '(r, fr, w1) := body {| err := None; defers := [] |} w in
  let p := match r with Pan v => Some v | _ => None end in
  let '(p', e, w2) := run_defers (defers fr) p (err fr) w1 in
  match p' with
  | Some v => (Panic v, w2)
  | None => (Normal e, w2)
  end.

Variable gorm : Driver.
(** The text of the goroutine's stack trace, for [runtime.Stack]. *)
Variable goroutine : string.

(** [context.WithTimeout(ctx, d)]; the [cancel] it returns is
    [cancel ctxt] below. *)
Definition context_WithTimeout (ctx : Context) (d : Duration) : go Context :=
  λ fr w, (Val (WithTimeout ctx d), fr, emit (EvWithTimeout ctx d) w).

Definition cancel (ctxt : Context) : deferred :=
  λ p e w, (p, e, emit (EvCancel ctxt) w).

Definition BeginTx (db : DataBase) (ctx : Context) : go GormDB :=
  call (EvBeginTx ctx) (λ s, let '(tx, s') := gorm_BeginTx gorm (DB db) ctx s in
                             (Normal tx, s')).

Definition Rollback (tx : GormDB) : go unit :=
  call (EvRollback tx) (gorm_Rollback gorm tx).

Definition Commit (tx : GormDB) : go error :=
  call (EvCommit tx) (gorm_Commit gorm tx).

(** [errors.Errorf("panic[%s] \nret[%v]", stack, ret)]. *)
Definition panic_error (stack : string) (ret : any) : errval :=
  Fundamental ("panic[" +:+ stack +:+ "] " +:+ newline +:+ "ret["
               +:+ Sprint_v ret +:+ "]").

(** The deferred function of lines 132-138. *)
Definition recover_handler : deferred :=
  λ p e w,
    let '(ret, p') := recover p in
    if negb (is_nil ret) then
      let stack := runtime_Stack goroutine 4096 in
      (p', Some (panic_error stack ret), w)
    else (p', e, w).

(** [TransactionCtx], lines 122-148. *)
Definition TransactionCtx (db : DataBase) (ctx : Context) (f : UnitOfWork)
  : world → outcome error * world :=
  func (
    tx ← (if bool_decide (TransTimeout (cfg db) ≠ 0) && negb (Deadline_ok ctx)
          then
            ctxt ← context_WithTimeout ctx (TransTimeout (cfg db));
            defer (cancel ctxt);;
            BeginTx db ctxt
          else
            BeginTx db ctx);
    defer recover_handler;;
    e ← call (EvUnitOfWork tx) (f tx);
    set_err e;;
    if bool_decide (e ≠ None) then
      Rollback tx;;
      return_
    else
      ce ← Commit tx;
      set_err ce;;
      return_).

(** [Transaction], lines 117-119. *)
Definition Transaction (db : DataBase) (f : UnitOfWork)
  : world → outcome error * world :=
  TransactionCtx db Background f.

(** Whether lines 124-127 derive a context bounded by the timeout. *)
Definition derives_timeout (db : DataBase) (ctx : Context) : bool :=
  bool_decide (TransTimeout (cfg db) ≠ 0) && negb (Deadline_ok ctx).

(** The handle the unit of work is called with, and the state of the
    pool at that call, when [TransactionCtx] starts in state [s]. *)
Definition begun (db : DataBase) (ctx : Context) (s : S) : GormDB * S :=
  gorm_BeginTx gorm (DB db)
    (if derives_timeout db ctx
     then WithTimeout ctx (TransTimeout (cfg db)) else ctx) s.

Definition is_rollback (e : event) : bool :=
  match e with EvRollback _ => true | _ => false end.
Definition is_commit (e : event) : bool :=
  match e with EvCommit _ => true | _ => false end.
Definition is_with_timeout (e : event) : bool :=
  match e with EvWithTimeout _ _ => true | _ => false end.

(** How many of the events of [evs] satisfy [p]. *)
Definition count (p : event → bool) (evs : list event) : nat :=
  length (filter (λ e, p e = true) evs).

End Transaction.
Global Arguments Driver : clear implicits.
Global Arguments UnitOfWork : clear implicits.
Global Arguments world : clear implicits.

Definition is_begin (e : event) : bool :=
  match e with EvBeginTx _ => true | _ => false end.
Definition is_unit_of_work (e : event) : bool :=
  match e with EvUnitOfWork _ => true | _ => false end.
Definition is_cancel (e : event) : bool :=
  match e with EvCancel _ => true | _ => false end.

(** The run-time panic of a method that reads a field of a nil receiver. *)
Definition nil_dereference : any :=
  of_error
    (ErrorString "runtime error: invalid memory address or nil pointer dereference").

(** The methods [Gorm] and [Goqu] of [*DataBase], lines 92-99; the
    receiver is a pointer, [None] when it is nil. *)
Definition DataBase_Gorm (db : option DataBase) : outcome GormDB :=
  match db with
  | Some db => Normal (DB db)
  | None => Panic nil_dereference
  end.

Definition DataBase_Goqu (db : option DataBase) : outcome GoquDatabase :=
  match db with
  | Some db => Normal (goqu db)
  | None => Panic nil_dereference
  end.

(** The functions [Gorm] and [Goqu], lines 23-30. *)
Definition Gorm (g : globals) : outcome GormDB := DataBase_Gorm (DefaultDB g).
Definition Goqu (g : globals) : outcome GoquDatabase :=
  DataBase_Goqu (DefaultDB g).

End Sql.

(** ** Package log *)

Module Log.
Import Go.

(** *** Package strings *)

(** [strings.Split(s, sep)] for a separator [sep] of one byte. *)
Fixpoint Split (s : string) (sep : Ascii.ascii) : list string :=
  match s with
  | EmptyString => [EmptyString]
  | String c r =>
      if bool_decide (c = sep) then EmptyString :: Split r sep
      else match Split r sep with
           | h :: t => String c h :: t
           | [] => [String c EmptyString]
           end
  end.

(** [strings.Join(elems, sep)]. *)
Fixpoint Join (elems : list string) (sep : string) : string :=
  match elems with
  | [] => ""
  | [x] => x
  | x :: r => x +:+ sep +:+ Join r sep
  end.

Definition is_ascii (c : Ascii.ascii) : bool :=
  (Ascii.nat_of_ascii c <? 128)%nat.

Definition is_upper (c : Ascii.ascii) : bool :=
  (65 <=? Ascii.nat_of_ascii c)%nat && (Ascii.nat_of_ascii c <=? 90)%nat.

(** [c += 'a' - 'A'] on the bytes ['A'..'Z']. *)
Definition lower_byte (c : Ascii.ascii) : Ascii.ascii :=
  if is_upper c then Ascii.ascii_of_nat (Ascii.nat_of_ascii c + 32) else c.

Fixpoint map_bytes (f : Ascii.ascii → Ascii.ascii) (s : string) : string :=
  match s with
  | EmptyString => EmptyString
  | String c r => String (f c) (map_bytes f r)
  end.

Fixpoint all_bytes (p : Ascii.ascii → bool) (s : string) : bool :=
  match s with
  | EmptyString => true
  | String c r => p c && all_bytes p r
  end.

(** [strings.ToLower]: a string of ASCII bytes is lowered byte by byte;
    any other string goes through [strings.Map(unicode.ToLower, s)],
    which is [unicode_lower]. *)
Definition ToLower (unicode_lower : string → string) (s : string) : string :=
  if all_bytes is_ascii s then map_bytes lower_byte s else unicode_lower s.

(** *** Package path/filepath, on Unix *)

Definition IsAbs (path : string) : bool :=
  match path with
  | String c _ => bool_decide (c = "/"%char)
  | EmptyString => false
  end.

(** *** Data *)

(** [KafkaConfig] and [WebHookConfig] are declared in other files of the
    package; [New] only passes them on. *)
Record KafkaConfig : Type := { kafka_target : string }.
Record WebHookConfig : Type := { webhook_target : string }.

Record Config : Type := {
  Path : string;
  Level : string;
  Fields : gmap string string;
  MaxSize : Z;
  MaxBackups : Z;
  MaxAge : Z;
  DisableStdout : bool;
  Compress : bool;
  Format : string;
  ForbitTime : bool;
  ForbitLevel : bool;
  Caller : bool;
  Prefix : string;
  Kafka : option KafkaConfig;
  WebHook : list WebHookConfig;
  RotateDay : Z
}.

(** [for k, v := range src { dst[k] = v }]. *)
Definition range_assign (dst src : gmap string string) : gmap string string :=
  map_fold (λ k v dst, <[k:=v]> dst) dst src.

(** [AddFields], lines 222-229.  A nil map and the map made by [make] are
    both the empty map. *)
Definition AddFields (c : Config) (fs : gmap string string) : Config :=
  {| Path := Path c; Level := Level c; Fields := range_assign (Fields c) fs;
     MaxSize := MaxSize c; MaxBackups := MaxBackups c; MaxAge := MaxAge c;
     DisableStdout := DisableStdout c; Compress := Compress c;
     Format := Format c; ForbitTime := ForbitTime c;
     ForbitLevel := ForbitLevel c; Caller := Caller c; Prefix := Prefix c;
     Kafka := Kafka c; WebHook := WebHook c; RotateDay := RotateDay c |}.

(** [CombineFields], lines 392-401. *)
Definition CombineFields (src src2 : gmap string string) : gmap string string :=
  let dst := ∅ in
  let dst := range_assign dst src in
  let dst := range_assign dst src2 in
  dst.

(** [zapcore.Level], an int8; the zero value is [InfoLevel]. *)
Definition Level_t : Type := Z.

(** The fields of [zapcore.EncoderConfig] that are strings; the others
    are the same functions in every configuration. *)
Record EncoderConfig : Type := {
  TimeKey : string;
  LevelKey : string;
  NameKey : string;
  CallerKey : string;
  MessageKey : string;
  StacktraceKey : string;
  LineEnding : string
}.

Inductive Encoder : Type :=
| NewJSONEncoder (ec : EncoderConfig)      (* zapcore *)
| NewFixEncoder (ec : EncoderConfig)       (* log/encoder *)
| NewConsoleEncoder (ec : EncoderConfig).  (* zapcore *)

(** [time.Duration], an int64: products wrap around. *)
Definition Duration : Type := Z.
Definition wrap64 (z : Z) : Z := (z + 2 ^ 63) mod 2 ^ 64 - 2 ^ 63.
Definition Hour : Duration := 3600000000000.
Definition mul64 (a b : Duration) : Duration := wrap64 (a * b).

(** [*rotatelogs.RotateLogs]. *)
Inductive RotateOption : Type :=
| WithLinkName (s : string)
| WithMaxAge (d : Duration)
| WithRotationTime (d : Duration).

Record RotateLogs : Type := {
  rotate_pattern : string;
  rotate_options : list RotateOption
}.

Inductive WriteSyncer : Type :=
| Lumberjack (Filename : string) (MaxSize MaxBackups MaxAge : Z)
    (Compress : bool)
| Rotate (h : option RotateLogs)           (* [None]: a nil pointer *)
| Stdout.

(** [zapcore.Core].  The syncers of [NewCore] are the arguments of
    [zapcore.NewMultiWriteSyncer]. *)
Inductive Core : Type :=
| NewCore (enc : Encoder) (ws : list WriteSyncer) (lvl : Level_t)
| Delivery (name : string).                (* a webhook or kafka core *)

(** [*zap.Logger]: the cores given to [zapcore.NewTee], and whether
    [zap.AddCaller()] is set. *)
Record ZapLogger : Type := { zap_tee : list Core; zap_caller : bool }.

Record Logger : Type := { zap : ZapLogger; config : Config }.
Record SugaredLogger : Type := { sugared : ZapLogger }.

(** [Sugar], lines 232-234. *)
Definition Sugar (log : Logger) : SugaredLogger := {| sugared := zap log |}.

(** The package-level variables [logger] and [sugger]. *)
Record globals : Type := {
  logger : option Logger;
  sugger : option SugaredLogger
}.

(** *** The world around [New]

    The operating system and the libraries [New] calls.  The answers of
    [stat] and [mkdir_all] are those for a path that is not empty. *)
Record Env : Type := {
  stat : string → option Errno;            (* [None]: the file is there *)
  mkdir_all : string → error;
  filepath_Abs : string → string * error;
  rotatelogs_New : string → list RotateOption → option RotateLogs * error;
  (* of this package, in other files *)
  NewWebHookCore : WebHookConfig → EncoderConfig → Core;
  NewKafkaCore : Config → EncoderConfig → Core * error;
  (* zapcore.Level.UnmarshalText; [None]: the text is not a level *)
  UnmarshalText : string → option Level_t;
  unicode_lower : string → string
}.

(** The calls [New] makes into the operating system and the libraries. *)
Inductive call : Type :=
| CallStat (path : string)
| CallMkdirAll (path : string)
| CallAbs (path : string)
| CallRotatelogsNew (pattern : string)
| CallNewKafkaCore.

(** A step of [New]: it goes on with a value, or [New] returns
    [nil, err] there. *)
Inductive step (A : Type) : Type :=
| Go_on (a : A)
| Return_nil (e : errval).
Global Arguments Go_on {A} a.
Global Arguments Return_nil {A} e.

Definition build (A : Type) : Type := list call → step A * list call.

Global Instance build_ret : MRet build := λ A a tr, (Go_on a, tr).
Global Instance build_bind : MBind build := λ A B k m tr,
  match m tr with
  | (Go_on a, tr') => k a tr'
  | (Return_nil e, tr') => (Return_nil e, tr')
  end.

Definition return_nil {A} (e : errval) : build A := λ tr, (Return_nil e, tr).

Definition called {A} (c : call) (a : A) : build A := λ tr, (Go_on a, tr ++ [c]).

(** [if err != nil { return nil, err }]. *)
Definition check (err : error) : build unit :=
  match err with
  | Some e => return_nil e
  | None => mret ()
  end.

(** [os.Stat]: the empty path names no file (ENOENT). *)
Definition os_Stat (env : Env) (path : string) : build (option Errno) :=
  called (CallStat path)
    (if bool_decide (path = "") then Some ENOENT else stat env path).

Definition os_IsNotExist (e : Errno) : bool :=
  match e with ENOENT => true | _ => false end.

(** [os.MkdirAll]: on the empty path [Stat] fails, there is no parent to
    make, and [Mkdir] fails with ENOENT. *)
Definition os_MkdirAll (env : Env) (path : string) : build error :=
  called (CallMkdirAll path)
    (if bool_decide (path = "") then Some (PathError "mkdir" "" ENOENT)
     else mkdir_all env path).

(** [isPathNotExist], lines 374-381. *)
Definition isPathNotExist (env : Env) (path : string) : build bool :=
  err ← os_Stat env path;
  match err with
  | Some e => if os_IsNotExist e then mret true else mret false
  | None => mret false
  end.

(** [getDir], lines 383-389. *)
Definition getDir (path : string) : string :=
  let paths := Split path "/"%char in
  Join (take (length paths - 1) paths) "/".

(** [ParseLevel], lines 404-408: the error of [UnmarshalText] is
    dropped, and [lv] stays zero when the text is not a level. *)
Definition ParseLevel (env : Env) (loglevel : string) : Level_t :=
  match UnmarshalText env loglevel with
  | Some lv => lv
  | None => 0
  end.

(** The [switch] of lines 325-332. *)
Definition select_encoder (env : Env) (format : string) (ec : EncoderConfig)
  : Encoder :=
  let lower := ToLower (unicode_lower env) format in
  if bool_decide (lower = "json") then NewJSONEncoder ec
  else if bool_decide (lower = "fix") then NewFixEncoder ec
  else NewConsoleEncoder ec.

(** The encoder configuration of lines 301-323, with the keys of lines
    247-249. *)
Definition encoderConfig (config : Config) : EncoderConfig :=
  let timeKey := "time" in
  let levelKey := "level" in
  let msgKey := "msg" in
  let timeKey := if ForbitTime config then "" else timeKey in
  let levelKey := if ForbitLevel config then "" else levelKey in
  {| TimeKey := timeKey; LevelKey := levelKey; NameKey := "logger";
     CallerKey := "caller"; MessageKey := msgKey;
     StacktraceKey := "stacktrace"; LineEnding := newline |}.

(** The block [if config.Path != ""] of lines 258-295: it yields the
    syncers of the log file. *)
Definition file_hooks (env : Env) (config : Config) : build (list WriteSyncer) :=
  if bool_decide (Path config ≠ "") then
    let dir := getDir (Path config) in
    notExist ← isPathNotExist env dir;
    (if notExist : bool then
       err ← os_MkdirAll env dir;
       check err
     else mret ());;
    let hooks :=
      if bool_decide (MaxSize config ≠ 0) then
        [Lumberjack (Path config) (MaxSize config)
           (MaxBackups config) (MaxAge config) (Compress config)]
      else [] in
    if bool_decide (RotateDay config ≠ 0) then
      let fn := Path config in
      fn ← (if negb (IsAbs fn) then
              '(v, err) ← called (CallAbs fn) (filepath_Abs env fn);
              check err;;
              mret v
            else mret fn);
      (* the error of rotatelogs.New is assigned and never read *)
      '(rotatehook, err) ←
        called (CallRotatelogsNew (fn +:+ ".%Y%m%d"))
          (rotatelogs_New env (fn +:+ ".%Y%m%d")
             [WithLinkName fn;
              WithMaxAge (mul64 (mul64 Hour 24) (wrap64 (MaxAge config)));
              WithRotationTime
                (mul64 (mul64 Hour 24) (wrap64 (RotateDay config)))]);
      mret (hooks ++ [Rotate rotatehook])
    else mret hooks
  else mret [].

(** The body of [New], lines 240-361. *)
Definition New_body (env : Env) (config : Config) : build Logger :=
  let err : error := None in
  lvl ← (if bool_decide (Level config ≠ "") then
           let lvl := ParseLevel env (Level config) in
           check err;;
           mret lvl
         else mret 0);
  hooks ← file_hooks env config;
  let hooks := if bool_decide (DisableStdout config = false)
               then hooks ++ [Stdout] else hooks in
  let encoderConfig := encoderConfig config in
  let ecoder := select_encoder env (Format config) encoderConfig in
  let cores := [NewCore ecoder hooks lvl] in
  let cores :=
    foldl (λ cores cfg, cores ++ [NewWebHookCore env cfg encoderConfig])
      cores (WebHook config) in
  cores ← (if bool_decide (Kafka config ≠ None) then
             '(core, err) ← called CallNewKafkaCore
                              (NewKafkaCore env config encoderConfig);
             check err;;
             mret (cores ++ [core])
           else mret cores);
  let l := {| zap_tee := cores; zap_caller := false |} in
  let l := if Caller config
           then {| zap_tee := zap_tee l; zap_caller := true |} else l in
  mret {| zap := l; config := config |}.

(** [New]: the two results, and the calls made. *)
Definition New (env : Env) (config : Config)
  : (option Logger * error) * list call :=
  match New_body env config [] with
  | (Go_on l, tr) => ((Some l, None), tr)
  | (Return_nil e, tr) => ((None, Some e), tr)
  end.

(** [Init], lines 364-372.  [logger] is assigned before the error is
    looked at. *)
Definition Init (env : Env) (config : Config) (g : globals)
  : error * globals :=
  let '(l, err) := fst (New env config) in
  let g := {| logger := l; sugger := sugger g |} in
  match err with
  | Some e => (Some e, g)
  | None => (None, {| logger := logger g; sugger := Sugar <$> logger g |})
  end.

(** The encoder of the first core of a logger, the one that writes to
    the files and to the standard output. *)
Definition primary_encoder (l : Logger) : option Encoder :=
  match zap_tee (zap l) with
  | NewCore enc _ _ :: _ => Some enc
  | _ => None
  end.

(** The syncers and the level of the first core of a logger. *)
Definition primary_syncers (l : Logger) : option (list WriteSyncer) :=
  match zap_tee (zap l) with
  | NewCore _ ws _ :: _ => Some ws
  | _ => None
  end.

Definition primary_level (l : Logger) : option Level_t :=
  match zap_tee (zap l) with
  | NewCore _ _ lvl :: _ => Some lvl
  | _ => None
  end.

(** The configuration an encoder was made with. *)
Definition encoder_config (enc : Encoder) : EncoderConfig :=
  match enc with
  | NewJSONEncoder ec | NewFixEncoder ec | NewConsoleEncoder ec => ec
  end.

(** [time.Hour*24*time.Duration(n)], the durations of lines 290-291. *)
Definition days (n : Z) : Duration := mul64 (mul64 Hour 24) (wrap64 n).

(** The name [rotatelogs.New] gets at lines 278-285: the path when it is
    absolute, else what [filepath.Abs] makes of it. *)
Definition rotate_name (env : Env) (config : Config) : string :=
  if IsAbs (Path config) then Path config
  else (filepath_Abs env (Path config)).1.

(** What [os.Stat] answers, and what [os.MkdirAll] answers. *)
Definition stat_answer (env : Env) (path : string) : option Errno :=
  if bool_decide (path = "") then Some ENOENT else stat env path.

Definition mkdir_answer (env : Env) (path : string) : error :=
  if bool_decide (path = "") then Some (PathError "mkdir" "" ENOENT)
  else mkdir_all env path.

End Log.

(** ** Sample configurations, drivers and units of work *)

Module Sample.
Import Go.

(** *** Package sql *)

Definition pool0 : Sql.SqlDB :=
  {| Sql.maxOpen := None; Sql.maxIdle := None; Sql.maxLifetime := None |}.

Definition handle0 : Sql.GormDB :=
  {| Sql.pool := pool0; Sql.singularTable := false; Sql.logMode := false;
     Sql.txContext := None |}.

Definition sql_config : Sql.Config :=
  {| Sql.Debug := false; Sql.Dialect := "mysql"; Sql.URL := "root@/app";
     Sql.MaxOpenConns := 10; Sql.MaxIdleConns := 0;
     Sql.ConnMaxLifetime := 0; Sql.TransTimeout := 5000000000 |}.

Definition gorm_Open_ok : Sql.gorm_Open_t := λ _ _, (handle0, None).

Definition refused : errval := ErrorString "dial tcp: connection refused".

Definition gorm_Open_refused : Sql.gorm_Open_t :=
  λ _ _, (handle0, Some refused).

Definition db0 : Sql.DataBase :=
  {| Sql.DB := handle0; Sql.cfg := sql_config;
     Sql.goqu := {| Sql.goqu_dialect := "mysql"; Sql.goqu_db := pool0 |} |}.

(** The state of the pool: how many transactions are open. *)
Definition begin_tx (db : Sql.GormDB) (ctx : Sql.Context) (s : nat)
  : Sql.GormDB * nat :=
  ({| Sql.pool := Sql.pool db; Sql.singularTable := Sql.singularTable db;
      Sql.logMode := Sql.logMode db; Sql.txContext := Some ctx |}, S s).

(** A driver whose calls all return. *)
Definition gorm_ok : Sql.Driver nat :=
  {| Sql.gorm_BeginTx := begin_tx;
     Sql.gorm_Rollback := λ _ s, (Normal (), pred s);
     Sql.gorm_Commit := λ _ s, (Normal None, pred s) |}.

Definition nil_deref : any :=
  of_string "runtime error: invalid memory address or nil pointer dereference".

(** A driver whose [Rollback] and [Commit] dereference a nil [*sql.Tx]. *)
Definition gorm_nil_tx : Sql.Driver nat :=
  {| Sql.gorm_BeginTx := begin_tx;
     Sql.gorm_Rollback := λ _ s, (Panic nil_deref, s);
     Sql.gorm_Commit := λ _ s, (Panic nil_deref, s) |}.

Definition duplicate_key : errval := ErrorString "Error 1062: Duplicate entry".

Definition work_ok : Sql.UnitOfWork nat := λ _ s, (Normal None, s).
Definition work_fails : Sql.UnitOfWork nat :=
  λ _ s, (Normal (Some duplicate_key), s).
Definition work_panics : Sql.UnitOfWork nat :=
  λ _ s, (Panic (of_string "boom"), s).

Definition world0 : Sql.world nat := {| Sql.drv := 0%nat; Sql.trace := [] |}.

Definition stack0 : string := "goroutine 1 [running]:".

(** *** Package log *)

Definition bad_pattern : errval := ErrorString "invalid strftime pattern".
Definition no_broker : errval := ErrorString "kafka: no broker".

(** A Unix host where only [/var/log] exists, directories can be made,
    the working directory is [/srv], and a rotation pattern with the
    unknown verb [%q] is refused. *)
Definition host : Log.Env :=
  {| Log.stat := λ p, if bool_decide (p = "/var/log") then None else Some ENOENT;
     Log.mkdir_all := λ _, None;
     Log.filepath_Abs := λ p, ("/srv/" +:+ p, None);
     Log.rotatelogs_New := λ pattern opts,
       if bool_decide (pattern = "/var/log/%q/app.log.%Y%m%d")
       then (None, Some bad_pattern)
       else (Some {| Log.rotate_pattern := pattern;
                     Log.rotate_options := opts |}, None);
     Log.NewWebHookCore := λ c _, Log.Delivery (Log.webhook_target c);
     Log.NewKafkaCore := λ _ _, (Log.Delivery "kafka", Some no_broker);
     Log.UnmarshalText := λ s,
       if bool_decide (s = "debug") then Some (-1)
       else if bool_decide (s = "info") then Some 0
       else if bool_decide (s = "error") then Some 2
       else None;
     Log.unicode_lower := λ s, s |}.

Definition log_config (path format : string) (rotateDay : Z)
    (kafka : option Log.KafkaConfig) : Log.Config :=
  {| Log.Path := path; Log.Level := "debug"; Log.Fields := ∅;
     Log.MaxSize := 0; Log.MaxBackups := 0; Log.MaxAge := 7;
     Log.DisableStdout := false; Log.Compress := false;
     Log.Format := format; Log.ForbitTime := false;
     Log.ForbitLevel := false; Log.Caller := false; Log.Prefix := "";
     Log.Kafka := kafka; Log.WebHook := []; Log.RotateDay := rotateDay |}.

(** A rotation-day configuration whose path has the verb [%q]. *)
Definition rotate_config : Log.Config :=
  log_config "/var/log/%q/app.log" "json" 1 None.

(** A bare file name. *)
Definition bare_config : Log.Config := log_config "app.log" "JSON" 0 None.

Definition stdout_config (format : string) : Log.Config :=
  log_config "" format 0 None.

Definition dev_logger : Log.Logger :=
  {| Log.zap := {| Log.zap_tee := []; Log.zap_caller := true |};
     Log.config := stdout_config "" |}.

Definition globals0 : Log.globals :=
  {| Log.logger := Some dev_logger;
     Log.sugger := Some (Log.Sugar dev_logger) |}.

(** A kafka target, on a host whose broker is down. *)
Definition kafka_config : Log.Config :=
  log_config "/var/log/app.log" "json" 0
    (Some {| Log.kafka_target := "events" |}).

(** A log file in the root directory. *)
Definition root_config : Log.Config := log_config "/app.log" "json" 0 None.

(** Both rotations, in a directory that is not there yet. *)
Definition srv_config : Log.Config :=
  {| Log.Path := "/srv/logs/app.log"; Log.Level := "debug"; Log.Fields := ∅;
     Log.MaxSize := 10; Log.MaxBackups := 0; Log.MaxAge := 7;
     Log.DisableStdout := false; Log.Compress := false;
     Log.Format := "json"; Log.ForbitTime := false;
     Log.ForbitLevel := false; Log.Caller := false; Log.Prefix := "";
     Log.Kafka := None; Log.WebHook := []; Log.RotateDay := 1 |}.

(** Two webhooks, the caller, and a level name that is none. *)
Definition webhook_config : Log.Config :=
  {| Log.Path := ""; Log.Level := "verbose"; Log.Fields := ∅;
     Log.MaxSize := 0; Log.MaxBackups := 0; Log.MaxAge := 0;
     Log.DisableStdout := false; Log.Compress := false;
     Log.Format := "fix"; Log.ForbitTime := false;
     Log.ForbitLevel := false; Log.Caller := true; Log.Prefix := "";
     Log.Kafka := None;
     Log.WebHook := [ {| Log.webhook_target := "telegram" |};
                      {| Log.webhook_target := "dingding" |} ];
     Log.RotateDay := 0 |}.

(** The sample host with a file system that cannot be written. *)
Definition host_readonly : Log.Env :=
  {| Log.stat := Log.stat host;
     Log.mkdir_all := λ p, Some (PathError "mkdir" p EACCES);
     Log.filepath_Abs := Log.filepath_Abs host;
     Log.rotatelogs_New := Log.rotatelogs_New host;
     Log.NewWebHookCore := Log.NewWebHookCore host;
     Log.NewKafkaCore := Log.NewKafkaCore host;
     Log.UnmarshalText := Log.UnmarshalText host;
     Log.unicode_lower := Log.unicode_lower host |}.

End Sample.

(** ** Properties of package sql *)

Import Go.

Lemma panic_value_not_nil (v : any) : is_nil (panic_value v) = false.
Proof. by destruct v. Qed.

Lemma Contains_middle (pre s post : string) : Contains (pre +:+ s +:+ post) s.
Proof. by exists pre, post. Qed.

Lemma append_assoc (a b c : string) : (a +:+ b) +:+ c = a +:+ (b +:+ c).
Proof.
  induction a as [|x a IH]; [done|].
  change (String x ((a +:+ b) +:+ c) = String x (a +:+ b +:+ c)).
  by rewrite IH.
Qed.

(** The message of the error made from a panic holds the stack trace that
    was captured and the rendering of the recovered value. *)
Lemma panic_error_contains (stack : string) (ret : any) :
  Contains (Error (Sql.panic_error stack ret)) stack ∧
  Contains (Error (Sql.panic_error stack ret)) (Sprint_v ret).
Proof.
  split; cbn [Error Sql.panic_error].
  - apply Contains_middle.
  - exists ("panic[" +:+ stack +:+ "] " +:+ newline +:+ "ret["), "]".
    by rewrite !append_assoc.
Qed.

(** [runtime.Stack] never writes more than the buffer holds. *)
Lemma runtime_Stack_length (goroutine : string) (n : nat) :
  (String.length (runtime_Stack goroutine n) ≤ n)%nat.
Proof.
  unfold runtime_Stack.
  assert (H : ∀ (s : string) (k : nat),
             (k ≤ String.length s)%nat →
             String.length (String.substring 0 k s) = k).
  { induction s as [|c s IH]; intros [|k] Hk; cbn in *; try done; try lia.
    rewrite IH; [done | lia]. }
  rewrite H; lia.
Qed.

Section TransactionProperties.
Context {S : Type} (gorm : Sql.Driver S) (goroutine : string).
Import Sql.

Local Abbreviation TransactionCtx := (Sql.TransactionCtx gorm goroutine).
Local Abbreviation stack := (runtime_Stack goroutine 4096).

(** The context [BeginTx] is called with. *)
Local Abbreviation begin_ctx db ctx :=
  (if derives_timeout db ctx then WithTimeout ctx (TransTimeout (cfg db))
   else ctx).

(** Every run of [TransactionCtx], case by case. *)
Lemma TransactionCtx_run db ctx f w :
  TransactionCtx db ctx f w =
  let '(tx, s1) := begun gorm db ctx (drv w) in
  let pre :=
    trace w
    ++ (if derives_timeout db ctx
        then [EvWithTimeout ctx (TransTimeout (cfg db))] else [])
    ++ [EvBeginTx (begin_ctx db ctx); EvUnitOfWork tx] in
  let post :=
    if derives_timeout db ctx then [EvCancel (begin_ctx db ctx)] else [] in
  match f tx s1 with
  | (Panic v, s2) =>
      (Normal (Some (panic_error stack (panic_value v))),
       {| drv := s2; trace := pre ++ post |})
  | (Normal (Some e), s2) =>
      match gorm_Rollback gorm tx s2 with
      | (Normal _, s3) =>
          (Normal (Some e),
           {| drv := s3; trace := pre ++ [EvRollback tx] ++ post |})
      | (Panic v, s3) =>
          (Normal (Some (panic_error stack (panic_value v))),
           {| drv := s3; trace := pre ++ [EvRollback tx] ++ post |})
      end
  | (Normal None, s2) =>
      match gorm_Commit gorm tx s2 with
      | (Normal ce, s3) =>
          (Normal ce,
           {| drv := s3; trace := pre ++ [EvCommit tx] ++ post |})
      | (Panic v, s3) =>
          (Normal (Some (panic_error stack (panic_value v))),
           {| drv := s3; trace := pre ++ [EvCommit tx] ++ post |})
      end
  end.
Proof.
  unfold Sql.TransactionCtx, begun, func, derives_timeout.
  unfold mbind, go_bind, mret, go_ret, context_WithTimeout, defer, BeginTx,
    Rollback, Commit, call, set_err, return_, emit.
  destruct (bool_decide _ && negb _); cbn;
    destruct (gorm_BeginTx _ _ _ _) as [tx s1]; cbn;
    destruct (f tx s1) as [[[e|]|v] s2]; cbn;
    try (destruct (gorm_Rollback _ _ _) as [[[]|v] s3]; cbn);
    try (destruct (gorm_Commit _ _ _) as [[ce|v] s3]; cbn);
    unfold recover_handler, cancel, emit; cbn;
    rewrite ?panic_value_not_nil; cbn;
    rewrite <- ?app_assoc; reflexivity.
Qed.

Lemma derives_timeout_spec db ctx :
  derives_timeout db ctx = true ↔
  Deadline_ok ctx = false ∧ TransTimeout (cfg db) ≠ 0.
Proof.
  unfold derives_timeout.
  rewrite andb_true_iff, bool_decide_eq_true, negb_true_iff. tauto.
Qed.

Lemma count_app p (l1 l2 : list event) :
  count p (l1 ++ l2) = (count p l1 + count p l2)%nat.
Proof. unfold count. by rewrite filter_app, length_app. Qed.

(** The events of a run: the begin, the call of the unit of work, at most
    one of a rollback and a commit, and the cancel of a derived context. *)
Lemma TransactionCtx_trace db ctx f w :
  ∃ tx mid,
    trace (TransactionCtx db ctx f w).2 =
      trace w
      ++ (if derives_timeout db ctx
          then [EvWithTimeout ctx (TransTimeout (cfg db))] else [])
      ++ [EvBeginTx (begin_ctx db ctx); EvUnitOfWork tx]
      ++ mid
      ++ (if derives_timeout db ctx
          then [EvCancel (begin_ctx db ctx)] else []) ∧
    (mid = [] ∨ mid = [EvRollback tx] ∨ mid = [EvCommit tx]).
Proof.
  rewrite TransactionCtx_run.
  destruct (begun _ _ _ _) as [tx s1]. exists tx.
  destruct (f tx s1) as [[[e|]|v] s2].
  - exists [EvRollback tx].
    destruct (gorm_Rollback _ _ _) as [[[]|v] s3]; cbn [snd trace];
      rewrite <- ?app_assoc; auto.
  - exists [EvCommit tx].
    destruct (gorm_Commit _ _ _) as [[ce|v] s3]; cbn [snd trace];
      rewrite <- ?app_assoc; auto.
  - exists []. cbn [snd trace]. rewrite <- ?app_assoc. auto.
Qed.

Lemma panic_value_id (v : any) : is_nil v = false → panic_value v = v.
Proof. unfold panic_value. by intros ->. Qed.

(** C1. When the unit of work panics, [TransactionCtx] returns normally, so
    the panic does not reach its caller; the error returned is not nil, it
    is the one [errors.Errorf] makes in the deferred function, and its
    message holds the rendering of the value recovered and the stack trace
    captured by [runtime.Stack]. *)
Theorem TransactionCtx_recovers_panic db ctx f w tx s1 v s2 :
  begun gorm db ctx (drv w) = (tx, s1) →
  f tx s1 = (Panic v, s2) →
  ∃ e w',
    TransactionCtx db ctx f w = (Normal (Some e), w') ∧
    e = panic_error stack (panic_value v) ∧
    Contains (Error e) (Sprint_v (panic_value v)) ∧
    (is_nil v = false → Contains (Error e) (Sprint_v v)) ∧
    Contains (Error e) stack.
Proof.
  intros Hb Hf. rewrite TransactionCtx_run, Hb, Hf.
  destruct (panic_error_contains stack (panic_value v)) as [Hs Hv].
  eexists _, _. split; [reflexivity|]. split; [reflexivity|].
  split; [exact Hv|]. split; [|exact Hs].
  intros Hn. rewrite <- (panic_value_id v Hn) at 2. exact Hv.
Qed.

(** C2, as amended.  When the unit of work returns an error that is not
    nil, [TransactionCtx] calls [Rollback] once and [Commit] never.  When
    that call of [Rollback] returns, [TransactionCtx] returns the error of
    the unit of work; when it panics, the deferred function replaces the
    error by the one made from the panic. *)
Theorem TransactionCtx_rolls_back_on_error db ctx f w tx s1 e s2 :
  begun gorm db ctx (drv w) = (tx, s1) →
  f tx s1 = (Normal (Some e), s2) →
  ∃ evs,
    trace (TransactionCtx db ctx f w).2 = trace w ++ evs ∧
    count is_rollback evs = 1%nat ∧
    count is_commit evs = 0%nat ∧
    (∀ s3, gorm_Rollback gorm tx s2 = (Normal (), s3) →
           (TransactionCtx db ctx f w).1 = Normal (Some e)) ∧
    (∀ v s3, gorm_Rollback gorm tx s2 = (Panic v, s3) →
             (TransactionCtx db ctx f w).1 =
               Normal (Some (panic_error stack (panic_value v)))).
Proof.
  intros Hb Hf. rewrite TransactionCtx_run, Hb, Hf.
  destruct (gorm_Rollback gorm tx s2) as [[[]|v] s3] eqn:Hr; cbn [fst snd trace];
    rewrite <- ?app_assoc;
    (eexists; split; [reflexivity|]);
    (split; [by destruct (derives_timeout db ctx)|]);
    (split; [by destruct (derives_timeout db ctx)|]);
    split; intros; simplify_eq; reflexivity.
Qed.

(** C3. When the unit of work returns nil, [TransactionCtx] calls [Commit]
    once and [Rollback] never, and it returns the error of the handle that
    [Commit] returns: nil when the commit succeeded. *)
Theorem TransactionCtx_commits_on_success db ctx f w tx s1 s2 :
  begun gorm db ctx (drv w) = (tx, s1) →
  f tx s1 = (Normal None, s2) →
  ∃ evs,
    trace (TransactionCtx db ctx f w).2 = trace w ++ evs ∧
    count is_commit evs = 1%nat ∧
    count is_rollback evs = 0%nat ∧
    (∀ ce s3, gorm_Commit gorm tx s2 = (Normal ce, s3) →
              (TransactionCtx db ctx f w).1 = Normal ce).
Proof.
  intros Hb Hf. rewrite TransactionCtx_run, Hb, Hf.
  destruct (gorm_Commit gorm tx s2) as [[ce|v] s3] eqn:Hc; cbn [fst snd trace];
    rewrite <- ?app_assoc;
    (eexists; split; [reflexivity|]);
    (split; [by destruct (derives_timeout db ctx)|]);
    (split; [by destruct (derives_timeout db ctx)|]);
    intros; simplify_eq; reflexivity.
Qed.

(** Membership of an event in a trace that is written out. *)
Local Ltac in_trace :=
  cbn; rewrite ?elem_of_cons, elem_of_nil;
  split;
  [ let H := fresh in
    intros H; repeat (destruct H as [H|H]); by simplify_eq
  | intros; destruct_and?; subst; auto 10 ].

(** C4. [TransactionCtx] calls [context.WithTimeout] if and only if the
    caller's context has no deadline and [TransTimeout] is not zero.  Then
    it derives the context from the caller's with that timeout and begins
    the transaction with it; in every other case it begins the transaction
    with the caller's context, and derives nothing. *)
Theorem TransactionCtx_timeout_policy db ctx f w :
  ∃ evs,
    trace (TransactionCtx db ctx f w).2 = trace w ++ evs ∧
    ((∃ parent d, EvWithTimeout parent d ∈ evs) ↔
     (Deadline_ok ctx = false ∧ TransTimeout (cfg db) ≠ 0)) ∧
    (Deadline_ok ctx = false ∧ TransTimeout (cfg db) ≠ 0 →
     (∀ parent d, EvWithTimeout parent d ∈ evs ↔
                  parent = ctx ∧ d = TransTimeout (cfg db)) ∧
     (∀ c, EvBeginTx c ∈ evs ↔ c = WithTimeout ctx (TransTimeout (cfg db)))) ∧
    (¬ (Deadline_ok ctx = false ∧ TransTimeout (cfg db) ≠ 0) →
     count is_with_timeout evs = 0%nat ∧
     (∀ c, EvBeginTx c ∈ evs ↔ c = ctx)).
Proof.
  destruct (TransactionCtx_trace db ctx f w) as (tx & mid & -> & Hmid).
  pose proof (derives_timeout_spec db ctx) as Hd.
  eexists. split; [reflexivity|].
  destruct (derives_timeout db ctx).
  - assert (Hc : Deadline_ok ctx = false ∧ TransTimeout (cfg db) ≠ 0)
      by by apply Hd.
    split; [|split].
    + split; [done|]. intros _. eexists _, _. apply elem_of_cons. by left.
    + intros _.
      split; intros; destruct Hmid as [-> | [-> | ->]]; in_trace.
    + intros Hn. by destruct Hn.
  - assert (Hc : ¬ (Deadline_ok ctx = false ∧ TransTimeout (cfg db) ≠ 0)).
    { intros H%Hd. done. }
    split; [|split].
    + split; [|done]. intros (parent & d & Hin). exfalso. revert Hin.
      destruct Hmid as [-> | [-> | ->]]; cbn;
        rewrite ?elem_of_cons, elem_of_nil; intros Hin;
        repeat (destruct Hin as [Hin|Hin]); by simplify_eq.
    + intros H. by destruct Hc.
    + intros _. split.
      * by destruct Hmid as [-> | [-> | ->]].
      * intros c. destruct Hmid as [-> | [-> | ->]]; in_trace.
Qed.

(** C8. The deferred function that recovers is registered before the unit
    of work is called and runs whenever [TransactionCtx] ends: no run of
    [TransactionCtx] panics once the transaction is begun, and a panic of
    [Rollback] or of [Commit] is turned into the same kind of error as a
    panic of the unit of work. *)
Theorem TransactionCtx_never_panics db ctx f w :
  (∃ e w', TransactionCtx db ctx f w = (Normal e, w')) ∧
  (∀ tx s1 e s2 v s3,
     begun gorm db ctx (drv w) = (tx, s1) →
     f tx s1 = (Normal (Some e), s2) →
     gorm_Rollback gorm tx s2 = (Panic v, s3) →
     (TransactionCtx db ctx f w).1 =
       Normal (Some (panic_error stack (panic_value v)))) ∧
  (∀ tx s1 s2 v s3,
     begun gorm db ctx (drv w) = (tx, s1) →
     f tx s1 = (Normal None, s2) →
     gorm_Commit gorm tx s2 = (Panic v, s3) →
     (TransactionCtx db ctx f w).1 =
       Normal (Some (panic_error stack (panic_value v)))).
Proof.
  rewrite TransactionCtx_run.
  destruct (begun gorm db ctx (drv w)) as [tx s1].
  split; [|split].
  - destruct (f tx s1) as [[[e|]|v] s2].
    + destruct (gorm_Rollback gorm tx s2) as [[[]|v] s3]; eauto.
    + destruct (gorm_Commit gorm tx s2) as [[ce|v] s3]; eauto.
    + eauto.
  - intros ?????? [= <- <-] -> ->. reflexivity.
  - intros ????? [= <- <-] -> ->. reflexivity.
Qed.

End TransactionProperties.

(** C7. [Inject] runs [Open] on the configuration it is given.  When [Open]
    returns an error, [Inject] panics with that error and does not return;
    when [Open] succeeds, [Inject] returns and [DefaultDB] is the handle
    that [Open] returned.  [Inject] returns only when [Open] succeeded. *)
Theorem Inject_opens_or_panics gorm_Open cfg g :
  (∀ e, (Sql.Open gorm_Open cfg).2 = Some e →
        ∃ g', Sql.Inject gorm_Open cfg g = (Panic (of_error e), g')) ∧
  (∀ h, Sql.Open gorm_Open cfg = (Some h, None) →
        Sql.Inject gorm_Open cfg g =
          (Normal (), {| Sql.DefaultDB := Some h |})) ∧
  ((∃ g', Sql.Inject gorm_Open cfg g = (Normal (), g')) ↔
   (Sql.Open gorm_Open cfg).2 = None).
Proof.
  unfold Sql.Inject.
  destruct (Sql.Open gorm_Open cfg) as [db [e|]]; cbn; split_and!.
  - intros ? [= <-]. eauto.
  - by intros ? [= ].
  - split; [by intros [? [= ]] | done].
  - by intros ? [= ].
  - by intros ? [= <-].
  - split; [done | eauto].
Qed.

(** A panic of the sample unit of work, recovered. *)
Lemma TransactionCtx_recovers_panic_witness :
  ∃ e w',
    Sql.TransactionCtx Sample.gorm_ok Sample.stack0 Sample.db0 Sql.Background
      Sample.work_panics Sample.world0 = (Normal (Some e), w') ∧
    e = Sql.panic_error (runtime_Stack Sample.stack0 4096) (of_string "boom") ∧
    Contains (Error e) "boom" ∧
    (is_nil (of_string "boom") = false → Contains (Error e) "boom") ∧
    Contains (Error e) (runtime_Stack Sample.stack0 4096).
Proof.
  exact (TransactionCtx_recovers_panic Sample.gorm_ok Sample.stack0 Sample.db0
           Sql.Background Sample.work_panics Sample.world0 _ _ _ _
           eq_refl eq_refl).
Defined.

(** C2 as it is stated fails: the unit of work returns the error
    [duplicate_key], [Rollback] panics on a nil [*sql.Tx], and
    [TransactionCtx] returns the error made from that panic, not the error
    of the unit of work. *)
Lemma TransactionCtx_error_replaced_when_rollback_panics :
  let tx := (Sql.begun Sample.gorm_nil_tx Sample.db0 Sql.Background 0%nat).1 in
  let run := Sql.TransactionCtx Sample.gorm_nil_tx Sample.stack0 Sample.db0
               Sql.Background Sample.work_fails Sample.world0 in
  Sample.work_fails tx 1%nat = (Normal (Some Sample.duplicate_key), 1%nat) ∧
  Sql.gorm_Rollback Sample.gorm_nil_tx tx 1%nat = (Panic Sample.nil_deref, 1%nat) ∧
  run.1 = Normal (Some (Sql.panic_error (runtime_Stack Sample.stack0 4096)
                          Sample.nil_deref)) ∧
  run.1 ≠ Normal (Some Sample.duplicate_key).
Proof. repeat split; try reflexivity. discriminate. Qed.

(** An error of the sample unit of work, with a driver that returns and
    with one that panics. *)
Lemma TransactionCtx_rolls_back_on_error_witness :
  ∃ evs,
    Sql.trace (Sql.TransactionCtx Sample.gorm_ok Sample.stack0 Sample.db0
                 Sql.Background Sample.work_fails Sample.world0).2 = [] ++ evs ∧
    Sql.count Sql.is_rollback evs = 1%nat ∧
    Sql.count Sql.is_commit evs = 0%nat ∧
    (Sql.TransactionCtx Sample.gorm_ok Sample.stack0 Sample.db0
       Sql.Background Sample.work_fails Sample.world0).1 =
      Normal (Some Sample.duplicate_key).
Proof.
  destruct (TransactionCtx_rolls_back_on_error Sample.gorm_ok Sample.stack0
              Sample.db0 Sql.Background Sample.work_fails Sample.world0
              _ _ _ _ eq_refl eq_refl) as (evs & Htr & Hr & Hc & Hret & _).
  exists evs.
  split; [exact Htr|]. split; [exact Hr|]. split; [exact Hc|].
  exact (Hret _ eq_refl).
Defined.

(** A success of the sample unit of work. *)
Lemma TransactionCtx_commits_on_success_witness :
  ∃ evs,
    Sql.trace (Sql.TransactionCtx Sample.gorm_ok Sample.stack0 Sample.db0
                 Sql.Background Sample.work_ok Sample.world0).2 = [] ++ evs ∧
    Sql.count Sql.is_commit evs = 1%nat ∧
    Sql.count Sql.is_rollback evs = 0%nat ∧
    (Sql.TransactionCtx Sample.gorm_ok Sample.stack0 Sample.db0
       Sql.Background Sample.work_ok Sample.world0).1 = Normal None.
Proof.
  destruct (TransactionCtx_commits_on_success Sample.gorm_ok Sample.stack0
              Sample.db0 Sql.Background Sample.work_ok Sample.world0
              _ _ _ eq_refl eq_refl) as (evs & Htr & Hc & Hr & Hret).
  exists evs.
  split; [exact Htr|]. split; [exact Hc|]. split; [exact Hr|].
  exact (Hret _ _ eq_refl).
Defined.

(** The background context has no deadline and the sample timeout is five
    seconds: the transaction is begun with the derived context.  A context
    with a deadline is passed on. *)
Lemma TransactionCtx_timeout_policy_witness :
  (∃ evs,
     Sql.trace (Sql.TransactionCtx Sample.gorm_ok Sample.stack0 Sample.db0
                  Sql.Background Sample.work_ok Sample.world0).2 = [] ++ evs ∧
     ∀ c, Sql.EvBeginTx c ∈ evs ↔
          c = Sql.WithTimeout Sql.Background 5000000000) ∧
  (∃ evs,
     Sql.trace (Sql.TransactionCtx Sample.gorm_ok Sample.stack0 Sample.db0
                  (Sql.WithDeadline Sql.Background 7) Sample.work_ok
                  Sample.world0).2 = [] ++ evs ∧
     Sql.count Sql.is_with_timeout evs = 0%nat ∧
     ∀ c, Sql.EvBeginTx c ∈ evs ↔ c = Sql.WithDeadline Sql.Background 7).
Proof.
  split.
  - destruct (TransactionCtx_timeout_policy Sample.gorm_ok Sample.stack0
                Sample.db0 Sql.Background Sample.work_ok Sample.world0)
      as (evs & Htr & _ & Hyes & _).
    exists evs. split; [exact Htr|].
    apply Hyes. split; [reflexivity | discriminate].
  - destruct (TransactionCtx_timeout_policy Sample.gorm_ok Sample.stack0
                Sample.db0 (Sql.WithDeadline Sql.Background 7) Sample.work_ok
                Sample.world0) as (evs & Htr & _ & _ & Hno).
    exists evs. split; [exact Htr|].
    apply Hno. intros [Hd _]. discriminate Hd.
Defined.

(** [Rollback] and [Commit] panic on a nil [*sql.Tx]; [TransactionCtx]
    returns. *)
Lemma TransactionCtx_never_panics_witness :
  (Sql.TransactionCtx Sample.gorm_nil_tx Sample.stack0 Sample.db0
     Sql.Background Sample.work_fails Sample.world0).1 =
    Normal (Some (Sql.panic_error (runtime_Stack Sample.stack0 4096)
                    Sample.nil_deref)) ∧
  (Sql.TransactionCtx Sample.gorm_nil_tx Sample.stack0 Sample.db0
     Sql.Background Sample.work_ok Sample.world0).1 =
    Normal (Some (Sql.panic_error (runtime_Stack Sample.stack0 4096)
                    Sample.nil_deref)).
Proof.
  split.
  - exact (proj1 (proj2 (TransactionCtx_never_panics Sample.gorm_nil_tx
             Sample.stack0 Sample.db0 Sql.Background Sample.work_fails
             Sample.world0)) _ _ _ _ _ _ eq_refl eq_refl eq_refl).
  - exact (proj2 (proj2 (TransactionCtx_never_panics Sample.gorm_nil_tx
             Sample.stack0 Sample.db0 Sql.Background Sample.work_ok
             Sample.world0)) _ _ _ _ _ eq_refl eq_refl eq_refl).
Defined.

(** A refused connection, and an accepted one. *)
Lemma Inject_opens_or_panics_witness :
  (∃ g', Sql.Inject Sample.gorm_Open_refused Sample.sql_config
           {| Sql.DefaultDB := None |} = (Panic (of_error Sample.refused), g')) ∧
  (∃ h, Sql.Open Sample.gorm_Open_ok Sample.sql_config = (Some h, None) ∧
        Sql.Inject Sample.gorm_Open_ok Sample.sql_config
          {| Sql.DefaultDB := None |} =
          (Normal (), {| Sql.DefaultDB := Some h |})).
Proof.
  split.
  - exact (proj1 (Inject_opens_or_panics Sample.gorm_Open_refused
             Sample.sql_config {| Sql.DefaultDB := None |}) _ eq_refl).
  - eexists. split; [reflexivity|].
    exact (proj1 (proj2 (Inject_opens_or_panics Sample.gorm_Open_ok
             Sample.sql_config {| Sql.DefaultDB := None |})) _ eq_refl).
Defined.

(** ** Properties of package log *)

Section LogProperties.
Import Log.

Lemma Contains_tail (c : ascii) (s sub : string) :
  Contains s sub → Contains (String c s) sub.
Proof. intros (pre & post & ->). by exists (String c pre), post. Qed.

(** [strings.Split] of a string without the separator is the string alone. *)
Lemma Split_without_sep (s : string) (sep : ascii) :
  ¬ Contains s (String sep "") → Split s sep = [s].
Proof.
  induction s as [|c s IH]; intros Hno; cbn; [done|].
  case_bool_decide as Hc.
  - subst c. destruct Hno. by exists "", s.
  - rewrite IH; [done|]. intros H. apply Hno. by apply Contains_tail.
Qed.

(** A string none of whose bytes is [c] does not contain [c]. *)
Lemma not_Contains_byte (s : string) (c : ascii) :
  all_bytes (λ x, negb (bool_decide (x = c))) s = true →
  ¬ Contains s (String c "").
Proof.
  induction s as [|x s IH]; cbn.
  - intros _ ([|? pre] & post & H); discriminate H.
  - intros [Hx Hs]%andb_true_iff ([|y pre] & post & H).
    + injection H as -> _. by rewrite bool_decide_eq_true_2 in Hx.
    + injection H as _ ->. apply (IH Hs). by exists pre, post.
Qed.

Lemma getDir_bare (path : string) : ¬ Contains path "/" → getDir path = "".
Proof. intros H. unfold getDir. by rewrite Split_without_sep. Qed.

(** [strings.ToLower] on ASCII strings does not depend on the Unicode
    tables: the spellings of a format name are lowered to one. *)
Lemma ToLower_ascii (ul1 ul2 : string → string) (s : string) :
  all_bytes is_ascii s = true → ToLower ul1 s = ToLower ul2 s.
Proof. unfold ToLower. by intros ->. Qed.

Lemma ToLower_json_spellings (ul : string → string) :
  Forall (λ s, ToLower ul s = "json") ["json"; "JSON"; "Json"; "jSoN"] ∧
  Forall (λ s, ToLower ul s = "fix") ["fix"; "FIX"; "Fix"] ∧
  Forall (λ s, ToLower ul s ≠ "json" ∧ ToLower ul s ≠ "fix")
    [""; "console"; "text"; "JSON "; "js0n"].
Proof. repeat split; repeat constructor; done. Qed.

Lemma bind_Go_on {A B} (m : build A) (k : A → build B) tr b tr' :
  (m ≫= k) tr = (Go_on b, tr') →
  ∃ a tr1, m tr = (Go_on a, tr1) ∧ k a tr1 = (Go_on b, tr').
Proof.
  unfold mbind, build_bind. destruct (m tr) as [[a|e] tr1]; [eauto | done].
Qed.

Lemma bind_Return_nil {A B} (m : build A) (k : A → build B) tr e tr' :
  (m ≫= k) tr = (Return_nil e, tr') →
  m tr = (Return_nil e, tr') ∨
  ∃ a tr1, m tr = (Go_on a, tr1) ∧ k a tr1 = (Return_nil e, tr').
Proof.
  unfold mbind, build_bind. destruct (m tr) as [[a|e'] tr1]; [eauto | ].
  intros [= -> ->]. by left.
Qed.

Lemma webhook_cores_head (env : Env) (ec : EncoderConfig) (hs : list WebHookConfig) :
  ∀ c cores,
    ∃ rest,
      foldl (λ cores cfg, cores ++ [NewWebHookCore env cfg ec]) (c :: cores) hs
      = c :: rest.
Proof.
  induction hs as [|h hs IH]; intros c cores; cbn; [eauto|]. apply IH.
Qed.

Lemma New_results env config :
  (∃ l, (New env config).1 = (Some l, None)) ∨
  (∃ e, (New env config).1 = (None, Some e)).
Proof.
  unfold New. destruct (New_body env config []) as [[l|e] tr]; eauto.
Qed.

Lemma New_primary env config l tr :
  New env config = ((Some l, None), tr) →
  ∃ hooks lvl rest,
    zap_tee (zap l) =
      NewCore (select_encoder env (Format config) (encoderConfig config))
        hooks lvl :: rest.
Proof.
  unfold New. destruct (New_body env config []) as [[l'|e] tr'] eqn:Hb; [|done].
  intros [= -> ->]. revert Hb. unfold New_body.
  intros (lvl & tr1 & _ & Hb)%bind_Go_on.
  apply bind_Go_on in Hb as (hooks & tr2 & _ & Hb).
  apply bind_Go_on in Hb as (cores & tr3 & Hk & [= <- <-]).
  set (hooks' := if bool_decide (DisableStdout config = false) then _ else _) in Hk.
  destruct (webhook_cores_head env (encoderConfig config) (WebHook config)
              (NewCore (select_encoder env (Format config) (encoderConfig config))
                 hooks' lvl) []) as [rest Hrest].
  rewrite Hrest in Hk.
  assert (∃ rest', cores = NewCore (select_encoder env (Format config)
                                     (encoderConfig config)) hooks' lvl :: rest')
    as [rest' ->].
  { destruct (bool_decide (Kafka config ≠ None)).
    - apply bind_Go_on in Hk as ([core err] & tr4 & _ & Hk).
      apply bind_Go_on in Hk as ([] & tr5 & _ & [= <- <-]). eauto.
    - injection Hk as <- <-. eauto. }
  exists hooks', lvl, rest'. by destruct (Caller config).
Qed.

(** Every result of [New] with an error has a nil logger. *)
Lemma New_error_nil_logger env config l e :
  (New env config).1 = (l, Some e) → l = None.
Proof.
  unfold New. destruct (New_body env config []) as [[l'|e'] tr]; cbn; congruence.
Qed.

(** The first step of [New], the level, never makes [New] return. *)
Lemma New_level_step env config :
  ∃ lvl, ∀ tr,
    (if bool_decide (Level config ≠ "") then
       let lvl := ParseLevel env (Level config) in
       check None;; mret lvl
     else mret 0 : build Level_t) tr = (Go_on lvl, tr).
Proof. destruct (bool_decide (Level config ≠ "")); eauto. Qed.

Lemma New_bare env config :
  Path config ≠ "" →
  getDir (Path config) = "" →
  New env config =
    ((None, Some (PathError "mkdir" "" ENOENT)), [CallStat ""; CallMkdirAll ""]).
Proof.
  intros HP Hdir. unfold New, New_body.
  destruct (New_level_step env config) as [lvl Hl].
  unfold mbind at 1. unfold build_bind at 1. rewrite Hl.
  unfold file_hooks. rewrite (bool_decide_eq_true_2 _ HP), Hdir.
  reflexivity.
Qed.

(** When the block of the log file makes [New] return, [rotatelogs.New]
    has not been called: the errors that stop it are those of [MkdirAll]
    and of [filepath.Abs]. *)
Lemma file_hooks_failure env config e tr :
  file_hooks env config [] = (Return_nil e, tr) →
  (∀ pattern, CallRotatelogsNew pattern ∉ tr) ∧
  (os_MkdirAll env (getDir (Path config)) [] =
     (Go_on (Some e), [CallMkdirAll (getDir (Path config))]) ∨
   (filepath_Abs env (Path config)).2 = Some e).
Proof.
  unfold file_hooks, isPathNotExist, os_Stat, os_MkdirAll, called, check,
    return_nil, mbind, build_bind, mret, build_ret.
  intros H.
  repeat case_match; simplify_eq; cbn in *;
    (split; [intros pattern Hin;
             rewrite ?elem_of_cons, ?elem_of_nil in Hin;
             repeat (destruct Hin as [Hin|Hin]); by simplify_eq
            | auto]).
Qed.

(** [rotatelogs.New] is called, and fails, and [New] goes on: with no
    kafka target it returns a logger and a nil error. *)
Lemma New_after_rotatelogs env config r tr pattern :
  New env config = (r, tr) →
  CallRotatelogsNew pattern ∈ tr →
  Kafka config = None →
  ∃ l, r = (Some l, None).
Proof.
  intros HN Hin HK. revert HN Hin. unfold New, New_body.
  destruct (New_level_step env config) as [lvl Hl].
  unfold mbind at 1. unfold build_bind at 1. rewrite Hl.
  rewrite HK, bool_decide_eq_false_2 by (by intros []).
  unfold mbind at 1. unfold build_bind at 1.
  destruct (file_hooks env config []) as [[hooks|e] tr1] eqn:Hh.
  - cbn. intros [= <- <-] _. eauto.
  - intros [= <- <-] Hin.
    by apply file_hooks_failure in Hh as [Hno _]; apply Hno in Hin.
Qed.

(** [New] returns an error exactly when the block of the log file stops
    it, or when a kafka target is configured and [NewKafkaCore] fails. *)
Lemma New_failure env config e tr :
  New env config = ((None, Some e), tr) ↔
  file_hooks env config [] = (Return_nil e, tr) ∨
  (∃ hooks tr1,
     file_hooks env config [] = (Go_on hooks, tr1) ∧
     Kafka config ≠ None ∧
     (NewKafkaCore env config (encoderConfig config)).2 = Some e ∧
     tr = tr1 ++ [CallNewKafkaCore]).
Proof.
  unfold New, New_body.
  destruct (New_level_step env config) as [lvl Hl].
  unfold mbind at 1. unfold build_bind at 1. rewrite Hl. clear Hl.
  unfold mbind at 1. unfold build_bind at 1.
  destruct (file_hooks env config []) as [[hooks|e'] tr1] eqn:Hh.
  - unfold called, check, return_nil, mbind, build_bind, mret, build_ret.
    destruct (decide (Kafka config = None)) as [HK|HK].
    + rewrite bool_decide_eq_false_2 by (by intros []).
      cbn. split.
      * intros H. by destruct (Caller config).
      * intros [H | (? & ? & _ & H & _)]; done.
    + rewrite bool_decide_eq_true_2 by done.
      destruct (NewKafkaCore env config (encoderConfig config))
        as [core [ek|]] eqn:Hk; cbn; split.
      * intros [= <- <-]. right. eauto 10.
      * intros [H | (? & ? & H1 & _ & H2 & ->)]; [done|]. by simplify_eq.
      * intros H. by destruct (Caller config).
      * intros [H | (? & ? & _ & _ & H & _)]; done.
  - split.
    + intros [= <- <-]. by left.
    + intros [H | (? & ? & H & _)]; [|done]. by simplify_eq.
Qed.

(** C5, where the code departs from it.  On the sample host the path
    [/var/log/%q/app.log] makes [rotatelogs.New] fail; [New] still returns a
    logger and a nil error, and the logger writes to the nil rotation
    handle. *)
Theorem New_drops_rotatelogs_error :
  let pattern := "/var/log/%q/app.log.%Y%m%d" in
  (∀ opts, rotatelogs_New Sample.host pattern opts
           = (None, Some Sample.bad_pattern)) ∧
  ∃ l enc lvl,
    New Sample.host Sample.rotate_config =
      ((Some l, None),
       [CallStat "/var/log/%q"; CallMkdirAll "/var/log/%q";
        CallRotatelogsNew pattern]) ∧
    zap_tee (zap l) = [NewCore enc [Rotate None; Stdout] lvl].
Proof. split; [done|]. eexists _, _, _. split; reflexivity. Qed.

(** C6. The encoder of the logger that [New] returns follows the
    lower-case form of [Format]: "json" gives the JSON encoder, "fix" the
    fixed-width one, and any other string, the empty one too, the console
    encoder. *)
Theorem New_selects_encoder env config l tr :
  New env config = ((Some l, None), tr) →
  let lower := ToLower (unicode_lower env) (Format config) in
  let ec := encoderConfig config in
  (lower = "json" → primary_encoder l = Some (NewJSONEncoder ec)) ∧
  (lower = "fix" → primary_encoder l = Some (NewFixEncoder ec)) ∧
  (lower ≠ "json" → lower ≠ "fix" →
   primary_encoder l = Some (NewConsoleEncoder ec)) ∧
  (Format config = "" → primary_encoder l = Some (NewConsoleEncoder ec)).
Proof.
  intros (hooks & lvl & rest & Hl)%New_primary. cbn zeta.
  unfold primary_encoder. rewrite Hl. unfold select_encoder.
  split_and!.
  - intros ->. done.
  - intros ->. done.
  - intros H1 H2. by rewrite !bool_decide_eq_false_2.
  - intros ->. done.
Qed.

Lemma New_selects_encoder_witness :
  ∃ l,
    New Sample.host (Sample.stdout_config "JsOn") = ((Some l, None), []) ∧
    primary_encoder l =
      Some (NewJSONEncoder (encoderConfig (Sample.stdout_config "JsOn"))).
Proof.
  eexists. split; [reflexivity|].
  exact (proj1 (New_selects_encoder Sample.host (Sample.stdout_config "JsOn")
                  _ _ eq_refl) eq_refl).
Defined.

(** C9. When [New] returns an error, [Init] returns it, the variable
    [logger] is nil, and the variable [sugger] is what it was. *)
Theorem Init_failure_overwrites_logger env config g e :
  (New env config).1.2 = Some e →
  Init env config g = (Some e, {| logger := None; sugger := sugger g |}).
Proof.
  intros He. unfold Init.
  destruct (New env config).1 as [l err] eqn:HN. cbn in He. subst err.
  by rewrite (New_error_nil_logger _ _ _ _ HN).
Qed.

Lemma Init_failure_overwrites_logger_witness :
  (New Sample.host Sample.bare_config).1.2 = Some (PathError "mkdir" "" ENOENT) ∧
  Init Sample.host Sample.bare_config Sample.globals0 =
    (Some (PathError "mkdir" "" ENOENT),
     {| logger := None; sugger := Some (Sugar Sample.dev_logger) |}).
Proof.
  split; [reflexivity|].
  exact (Init_failure_overwrites_logger Sample.host Sample.bare_config
           Sample.globals0 _ eq_refl).
Defined.

(** C10. For a path that is not empty and has no [/], [getDir] is the
    empty string; [New] calls [os.Stat] and [os.MkdirAll] on the empty path,
    nothing else, and returns the error of [MkdirAll] and a nil logger. *)
Theorem New_bare_file_name env config :
  Path config ≠ "" →
  ¬ Contains (Path config) "/" →
  getDir (Path config) = "" ∧
  New env config =
    ((None, Some (PathError "mkdir" "" ENOENT)),
     [CallStat ""; CallMkdirAll ""]).
Proof.
  intros HP Hno. pose proof (getDir_bare _ Hno) as Hdir.
  split; [exact Hdir|]. by apply New_bare.
Qed.

Lemma New_bare_file_name_witness :
  getDir "app.log" = "" ∧
  New Sample.host Sample.bare_config =
    ((None, Some (PathError "mkdir" "" ENOENT)),
     [CallStat ""; CallMkdirAll ""]).
Proof.
  apply (New_bare_file_name Sample.host Sample.bare_config).
  - discriminate.
  - apply not_Contains_byte. reflexivity.
Defined.

End LogProperties.

(** ** More properties of package sql *)

Section OpenProperties.
Import Sql.
Context (gorm_Open : gorm_Open_t) (cfg : Config).

(** What [gorm.Open] answers for the configuration. *)
Local Abbreviation opened := (gorm_Open (Dialect cfg) (URL cfg)).

(** [Open] on a driver that reports no error. *)
Lemma Open_success :
  opened.2 = None →
  ∃ h, Open gorm_Open cfg = (Some h, None) ∧
       Sql.cfg h = cfg ∧
       goqu h = {| goqu_dialect := Dialect cfg; goqu_db := pool (DB h) |} ∧
       singularTable (DB h) = true ∧
       logMode (DB h) = (if Debug cfg then true else logMode opened.1) ∧
       txContext (DB h) = txContext opened.1 ∧
       maxOpen (pool (DB h)) =
         (if bool_decide (MaxOpenConns cfg = 0) then maxOpen (pool opened.1)
          else Some (MaxOpenConns cfg)) ∧
       maxIdle (pool (DB h)) =
         (if bool_decide (MaxIdleConns cfg = 0) then maxIdle (pool opened.1)
          else Some (MaxIdleConns cfg)) ∧
       maxLifetime (pool (DB h)) =
         (if bool_decide (ConnMaxLifetime cfg = 0)
          then maxLifetime (pool opened.1)
          else Some (ConnMaxLifetime cfg)).
Proof.
  unfold Open. destruct opened as [db err]. cbn. intros ->.
  eexists. split; [reflexivity|]. cbn.
  repeat case_bool_decide; destruct (Debug cfg); try done.
Qed.

Lemma Open_inv h :
  Open gorm_Open cfg = (Some h, None) → opened.2 = None.
Proof. unfold Open. by destruct opened as [db [e|]]. Qed.

(** X1. [Open] returns the error of [gorm.Open] as it is, and a handle
    exactly when that error is nil. *)
Theorem Open_error_verbatim :
  (Open gorm_Open cfg).2 = opened.2 ∧
  ((Open gorm_Open cfg).1 = None ↔ opened.2 ≠ None).
Proof.
  unfold Open. destruct opened as [db [e|]]; cbn.
  - by split.
  - split; [done|]. split; [done|]. by intros [].
Qed.


(** X3. The handle [Open] returns keeps the configuration, has singular
    table names switched on, has the log mode switched on when [Debug] is
    set (and as the driver left it otherwise), and its query builder is
    made for the configured dialect over the very pool of the gorm handle,
    with the limits already applied. *)
Theorem Open_handle h :
  Open gorm_Open cfg = (Some h, None) →
  Sql.cfg h = cfg ∧
  singularTable (DB h) = true ∧
  logMode (DB h) = (if Debug cfg then true else logMode opened.1) ∧
  goqu_dialect (goqu h) = Dialect cfg ∧
  goqu_db (goqu h) = pool (DB h).
Proof.
  intros HO.
  pose proof (Open_inv _ HO) as He.
  destruct (Open_success He) as (h' & HO' & Hc & Hg & Hs & Hl & _).
  rewrite HO in HO'. simplify_eq. by rewrite Hg.
Qed.

(** X4. After an [Inject] whose [Open] succeeds, [Gorm()] and [Goqu()]
    return the gorm handle and the query builder of the database just
    opened, whatever [DefaultDB] held before, and the query builder works
    on the pool of that gorm handle. *)
Theorem Inject_then_accessors g :
  opened.2 = None →
  ∃ h g',
    Open gorm_Open cfg = (Some h, None) ∧
    Inject gorm_Open cfg g = (Normal (), g') ∧
    Gorm g' = Normal (DB h) ∧
    Goqu g' = Normal (goqu h) ∧
    goqu_db (goqu h) = pool (DB h).
Proof.
  intros He. destruct (Open_success He) as (h & HO & _ & Hg & _).
  exists h, {| DefaultDB := Some h |}. unfold Inject. rewrite HO.
  split_and!; try done. by rewrite Hg.
Qed.

(** X5. An [Inject] whose [Open] fails panics with the error, and by then
    it has set [DefaultDB] to nil: a handle that was there is lost, and
    [Gorm()] and [Goqu()] panic on the nil pointer afterwards. *)
Theorem Inject_failure_clears_DefaultDB g e :
  opened.2 = Some e →
  ∃ g',
    Inject gorm_Open cfg g = (Panic (of_error e), g') ∧
    DefaultDB g' = None ∧
    Gorm g' = Panic nil_dereference ∧
    Goqu g' = Panic nil_dereference.
Proof.
  intros He. unfold Inject, Open. destruct opened as [db err].
  cbn in He. subst err. by eexists.
Qed.

End OpenProperties.


Lemma Open_handle_witness :
  ∃ h,
    Sql.Open Sample.gorm_Open_ok Sample.sql_config = (Some h, None) ∧
    Sql.cfg h = Sample.sql_config ∧
    Sql.singularTable (Sql.DB h) = true ∧
    Sql.logMode (Sql.DB h) = false ∧
    Sql.goqu_dialect (Sql.goqu h) = "mysql" ∧
    Sql.goqu_db (Sql.goqu h) = Sql.pool (Sql.DB h).
Proof.
  eexists. split; [reflexivity|].
  exact (Open_handle Sample.gorm_Open_ok Sample.sql_config _ eq_refl).
Defined.

Lemma Inject_then_accessors_witness :
  ∃ h g',
    Sql.Open Sample.gorm_Open_ok Sample.sql_config = (Some h, None) ∧
    Sql.Inject Sample.gorm_Open_ok Sample.sql_config
      {| Sql.DefaultDB := None |} = (Normal (), g') ∧
    Sql.Gorm g' = Normal (Sql.DB h) ∧
    Sql.Goqu g' = Normal (Sql.goqu h) ∧
    Sql.goqu_db (Sql.goqu h) = Sql.pool (Sql.DB h).
Proof.
  exact (Inject_then_accessors Sample.gorm_Open_ok Sample.sql_config
           {| Sql.DefaultDB := None |} eq_refl).
Defined.

(** A handle is in [DefaultDB]; the next [Inject] is refused. *)
Lemma Inject_failure_clears_DefaultDB_witness :
  ∃ g',
    Sql.Inject Sample.gorm_Open_refused Sample.sql_config
      {| Sql.DefaultDB := Some Sample.db0 |} =
      (Panic (of_error Sample.refused), g') ∧
    Sql.DefaultDB g' = None ∧
    Sql.Gorm g' = Panic Sql.nil_dereference ∧
    Sql.Goqu g' = Panic Sql.nil_dereference.
Proof.
  exact (Inject_failure_clears_DefaultDB Sample.gorm_Open_refused
           Sample.sql_config {| Sql.DefaultDB := Some Sample.db0 |} _ eq_refl).
Defined.

Section TransactionRuns.
Context {S : Type} (gorm : Sql.Driver S) (goroutine : string).
Import Sql.

Local Abbreviation TransactionCtx := (Sql.TransactionCtx gorm goroutine).
Local Abbreviation Transaction := (Sql.Transaction gorm goroutine).

(** The context [BeginTx] is called with. *)
Local Abbreviation begin_ctx db ctx :=
  (if derives_timeout db ctx then WithTimeout ctx (TransTimeout (cfg db))
   else ctx).

(** The events of a run, with the handle of the transaction named. *)
Lemma TransactionCtx_events db ctx f w tx s1 :
  begun gorm db ctx (drv w) = (tx, s1) →
  ∃ mid,
    trace (TransactionCtx db ctx f w).2 =
      trace w
      ++ (if derives_timeout db ctx
          then [EvWithTimeout ctx (TransTimeout (cfg db))] else [])
      ++ [EvBeginTx (begin_ctx db ctx); EvUnitOfWork tx]
      ++ mid
      ++ (if derives_timeout db ctx
          then [EvCancel (begin_ctx db ctx)] else []) ∧
    match (f tx s1).1 with
    | Panic _ => mid = []
    | Normal (Some _) => mid = [EvRollback tx]
    | Normal None => mid = [EvCommit tx]
    end.
Proof.
  intros Hb. rewrite TransactionCtx_run, Hb.
  destruct (f tx s1) as [[[e|]|v] s2]; cbn [fst].
  - exists [EvRollback tx].
    destruct (gorm_Rollback _ _ _) as [[[]|v] s3]; cbn [snd trace];
      rewrite <- ?app_assoc; auto.
  - exists [EvCommit tx].
    destruct (gorm_Commit _ _ _) as [[ce|v] s3]; cbn [snd trace];
      rewrite <- ?app_assoc; auto.
  - exists []. cbn [snd trace]. rewrite <- ?app_assoc. auto.
Qed.

(** X6. In every run [TransactionCtx] calls [BeginTx] once and the unit of
    work once, the unit of work right after [BeginTx] and with the handle
    [BeginTx] returned; nothing but the derivation of the timeout happens
    before, and no rollback or commit. *)
Theorem TransactionCtx_calls_unit_of_work_once db ctx f w tx s1 :
  begun gorm db ctx (drv w) = (tx, s1) →
  ∃ before c after,
    trace (TransactionCtx db ctx f w).2 =
      trace w ++ before ++ [EvBeginTx c; EvUnitOfWork tx] ++ after ∧
    (before = [] ∨ before = [EvWithTimeout ctx (TransTimeout (cfg db))]) ∧
    count is_begin (before ++ after) = 0%nat ∧
    count is_unit_of_work (before ++ after) = 0%nat.
Proof.
  intros Hb. destruct (TransactionCtx_events db ctx f w tx s1 Hb) as (mid & -> & Hmid).
  eexists _, _, _. split; [reflexivity|].
  destruct (derives_timeout db ctx); (split; [auto|]);
    destruct (f tx s1).1 as [[e|]|v]; subst mid; done.
Qed.

(** X7. [TransactionCtx] ends a transaction at most once: when the unit of
    work returns it calls exactly one of [Rollback] and [Commit], once;
    when the unit of work panics it calls neither, and the transaction is
    left as it is. *)
Theorem TransactionCtx_ends_at_most_once db ctx f w tx s1 :
  begun gorm db ctx (drv w) = (tx, s1) →
  ∃ evs,
    trace (TransactionCtx db ctx f w).2 = trace w ++ evs ∧
    (count is_rollback evs + count is_commit evs ≤ 1)%nat ∧
    ((count is_rollback evs + count is_commit evs = 0)%nat ↔
     ∃ v, (f tx s1).1 = Panic v).
Proof.
  intros Hb. destruct (TransactionCtx_events db ctx f w tx s1 Hb) as (mid & -> & Hmid).
  eexists. split; [reflexivity|].
  destruct (f tx s1).1 as [[e|]|v]; subst mid;
    destruct (derives_timeout db ctx); vm_compute count;
    (split; [lia|]); split; try done; try (intros [? [=]]); eauto.
Qed.

(** X8. A context derived for the timeout is always cancelled: its
    [cancel] runs once, as the last thing [TransactionCtx] does, also when
    the unit of work, [Rollback] or [Commit] panics.  When no context is
    derived nothing is cancelled. *)
Theorem TransactionCtx_cancels_last db ctx f w :
  ∃ evs,
    trace (TransactionCtx db ctx f w).2 = trace w ++ evs ∧
    (Deadline_ok ctx = false ∧ TransTimeout (cfg db) ≠ 0 →
     ∃ body,
       evs = body ++ [EvCancel (WithTimeout ctx (TransTimeout (cfg db)))] ∧
       count is_cancel body = 0%nat) ∧
    (¬ (Deadline_ok ctx = false ∧ TransTimeout (cfg db) ≠ 0) →
     count is_cancel evs = 0%nat).
Proof.
  destruct (begun gorm db ctx (drv w)) as [tx s1] eqn:Hb.
  destruct (TransactionCtx_events db ctx f w tx s1 Hb) as (mid & -> & Hmid).
  pose proof (derives_timeout_spec db ctx) as Hd.
  eexists. split; [reflexivity|].
  destruct (derives_timeout db ctx).
  - split; [|intros Hn; destruct Hn; by apply Hd].
    intros _. eexists. split.
    + rewrite !app_assoc. reflexivity.
    + destruct (f tx s1).1 as [[e|]|v]; by subst mid.
  - split; [intros H%Hd; done|]. intros _.
    destruct (f tx s1).1 as [[e|]|v]; by subst mid.
Qed.

(** X9. [Transaction] runs under the background context, which has no
    deadline: the transaction is begun under a context bounded by
    [TransTimeout] whenever [TransTimeout] is not zero, and under the
    background context itself when it is zero. *)
Theorem Transaction_timeout db f w :
  ∃ evs,
    trace (Transaction db f w).2 = trace w ++ evs ∧
    ∀ c, EvBeginTx c ∈ evs ↔
         c = (if bool_decide (TransTimeout (cfg db) = 0) then Background
              else WithTimeout Background (TransTimeout (cfg db))).
Proof.
  unfold Sql.Transaction.
  destruct (begun gorm db Background (drv w)) as [tx s1] eqn:Hb.
  destruct (TransactionCtx_events db Background f w tx s1 Hb) as (mid & -> & Hmid).
  eexists. split; [reflexivity|]. intros c.
  unfold derives_timeout. cbn [Deadline_ok negb]. rewrite andb_true_r.
  destruct (decide (TransTimeout (cfg db) = 0)) as [H0|H0].
  - rewrite (bool_decide_eq_false_2 _ (λ H, H H0)), (bool_decide_eq_true_2 _ H0).
    destruct (f tx s1).1 as [[e|]|v]; subst mid; cbn;
      rewrite ?elem_of_cons, elem_of_nil;
      (split; [intros H; repeat (destruct H as [H|H]); by simplify_eq
              | intros ->; auto]).
  - rewrite (bool_decide_eq_true_2 _ H0), (bool_decide_eq_false_2 _ H0).
    destruct (f tx s1).1 as [[e|]|v]; subst mid; cbn;
      rewrite ?elem_of_cons, elem_of_nil;
      (split; [intros H; repeat (destruct H as [H|H]); by simplify_eq
              | intros ->; auto]).
Qed.

End TransactionRuns.

Lemma TransactionCtx_calls_unit_of_work_once_witness :
  ∃ before c after,
    Sql.trace (Sql.TransactionCtx Sample.gorm_ok Sample.stack0 Sample.db0
                 Sql.Background Sample.work_ok Sample.world0).2 =
      [] ++ before
      ++ [Sql.EvBeginTx c;
          Sql.EvUnitOfWork
            (Sql.begun Sample.gorm_ok Sample.db0 Sql.Background 0%nat).1]
      ++ after ∧
    (before = [] ∨ before = [Sql.EvWithTimeout Sql.Background 5000000000]) ∧
    Sql.count Sql.is_begin (before ++ after) = 0%nat ∧
    Sql.count Sql.is_unit_of_work (before ++ after) = 0%nat.
Proof.
  exact (TransactionCtx_calls_unit_of_work_once Sample.gorm_ok Sample.stack0
           Sample.db0 Sql.Background Sample.work_ok Sample.world0 _ _ eq_refl).
Defined.

(** The sample unit of work panics: neither rollback nor commit. *)
Lemma TransactionCtx_ends_at_most_once_witness :
  ∃ evs,
    Sql.trace (Sql.TransactionCtx Sample.gorm_ok Sample.stack0 Sample.db0
                 Sql.Background Sample.work_panics Sample.world0).2 =
      [] ++ evs ∧
    (Sql.count Sql.is_rollback evs + Sql.count Sql.is_commit evs = 0)%nat.
Proof.
  destruct (TransactionCtx_ends_at_most_once Sample.gorm_ok Sample.stack0
              Sample.db0 Sql.Background Sample.work_panics Sample.world0
              _ _ eq_refl) as (evs & Htr & _ & Hz).
  exists evs. split; [exact Htr|].
  apply Hz. by eexists.
Defined.

Lemma TransactionCtx_cancels_last_witness :
  ∃ evs body,
    Sql.trace (Sql.TransactionCtx Sample.gorm_nil_tx Sample.stack0 Sample.db0
                 Sql.Background Sample.work_fails Sample.world0).2 =
      [] ++ evs ∧
    evs = body ++ [Sql.EvCancel (Sql.WithTimeout Sql.Background 5000000000)] ∧
    Sql.count Sql.is_cancel body = 0%nat.
Proof.
  destruct (TransactionCtx_cancels_last Sample.gorm_nil_tx Sample.stack0
              Sample.db0 Sql.Background Sample.work_fails Sample.world0)
    as (evs & Htr & Hyes & _).
  destruct Hyes as (body & Hb & Hc); [split; [reflexivity | discriminate]|].
  by exists evs, body.
Defined.

(** ** More properties of package log *)

Section NewProperties.
Import Log.

(** The webhook cores are appended one by one, in the order of the
    configuration. *)
Lemma webhook_cores_map (env : Env) (ec : EncoderConfig)
    (hs : list WebHookConfig) (cores : list Core) :
  foldl (λ cores cfg, cores ++ [NewWebHookCore env cfg ec]) cores hs
  = cores ++ map (λ cfg, NewWebHookCore env cfg ec) hs.
Proof.
  revert cores. induction hs as [|h hs IH]; intros cores; cbn.
  - by rewrite app_nil_r.
  - by rewrite IH, <- app_assoc.
Qed.

(** The level [New] gives to the first core. *)
Local Abbreviation level_of env config :=
  (if bool_decide (Level config ≠ "") then ParseLevel env (Level config)
   else 0).

(** The logger [New] builds from the syncers of the log file and the
    cores that come after those of the webhooks. *)
Local Abbreviation logger_of env config hooks last :=
  {| zap :=
       {| zap_tee :=
            NewCore (select_encoder env (Format config) (encoderConfig config))
              (if DisableStdout config then hooks else hooks ++ [Stdout])
              (level_of env config)
            :: map (λ cfg, NewWebHookCore env cfg (encoderConfig config))
                 (WebHook config)
            ++ last;
          zap_caller := Caller config |};
     config := config |}.

(** Every run of [New], case by case. *)
Lemma New_run env config :
  New env config =
  match file_hooks env config [] with
  | (Return_nil e, tr) => ((None, Some e), tr)
  | (Go_on hooks, tr) =>
      if bool_decide (Kafka config ≠ None) then
        match NewKafkaCore env config (encoderConfig config) with
        | (core, Some e) => ((None, Some e), tr ++ [CallNewKafkaCore])
        | (core, None) =>
            ((Some (logger_of env config hooks [core]), None),
             tr ++ [CallNewKafkaCore])
        end
      else ((Some (logger_of env config hooks []), None), tr)
  end.
Proof.
  unfold New, New_body.
  assert (Hl : ∀ tr,
    (if bool_decide (Level config ≠ "") then
       let lvl := ParseLevel env (Level config) in
       check None;; mret lvl
     else mret 0 : build Level_t) tr = (Go_on (level_of env config), tr)).
  { intros tr. by destruct (bool_decide (Level config ≠ "")). }
  unfold mbind at 1. unfold build_bind at 1. rewrite Hl. clear Hl.
  unfold mbind at 1. unfold build_bind at 1.
  destruct (file_hooks env config []) as [[hooks|e] tr]; [|done].
  rewrite webhook_cores_map.
  assert (Hs : (if bool_decide (DisableStdout config = false)
                then hooks ++ [Stdout] else hooks)
               = (if DisableStdout config then hooks else hooks ++ [Stdout])).
  { by destruct (DisableStdout config). }
  rewrite Hs. clear Hs.
  unfold called, check, return_nil, mbind, build_bind, mret, build_ret.
  destruct (bool_decide (Kafka config ≠ None)).
  - destruct (NewKafkaCore env config (encoderConfig config)) as [core [e|]];
      [done|]. cbn. destruct (Caller config); by rewrite <- ?app_assoc.
  - cbn. destruct (Caller config); by rewrite ?app_nil_r.
Qed.

(** Every run of the block of the log file, case by case. *)
Lemma file_hooks_run env config :
  file_hooks env config [] =
  if bool_decide (Path config = "") then (Go_on [], [])
  else
    let dir := getDir (Path config) in
    let made := match stat_answer env dir with
                | Some e => os_IsNotExist e
                | None => false
                end in
    let tr1 := CallStat dir :: (if made then [CallMkdirAll dir] else []) in
    match (if made then mkdir_answer env dir else None) with
    | Some e => (Return_nil e, tr1)
    | None =>
        let hooks :=
          if bool_decide (MaxSize config = 0) then []
          else [Lumberjack (Path config) (MaxSize config) (MaxBackups config)
                  (MaxAge config) (Compress config)] in
        if bool_decide (RotateDay config = 0) then (Go_on hooks, tr1)
        else
          let fn := rotate_name env config in
          let rot :=
            Rotate (rotatelogs_New env (fn +:+ ".%Y%m%d")
                      [WithLinkName fn; WithMaxAge (days (MaxAge config));
                       WithRotationTime (days (RotateDay config))]).1 in
          if IsAbs (Path config) then
            (Go_on (hooks ++ [rot]),
             tr1 ++ [CallRotatelogsNew (fn +:+ ".%Y%m%d")])
          else
            match (filepath_Abs env (Path config)).2 with
            | Some e => (Return_nil e, tr1 ++ [CallAbs (Path config)])
            | None =>
                (Go_on (hooks ++ [rot]),
                 tr1 ++ [CallAbs (Path config);
                         CallRotatelogsNew (fn +:+ ".%Y%m%d")])
            end
    end.
Proof.
  unfold file_hooks, isPathNotExist, os_Stat, os_MkdirAll, called, check,
    return_nil, mbind, build_bind, mret, build_ret, rotate_name,
    stat_answer, mkdir_answer, days.
  rewrite !bool_decide_not.
  destruct (bool_decide (Path config = "")); cbn; [done|].
  destruct (bool_decide (MaxSize config = 0));
    destruct (bool_decide (RotateDay config = 0));
    destruct (bool_decide (getDir (Path config) = ""));
    repeat match goal with
           | |- context [stat env ?d] => destruct (stat env d) as [[]|]
           | |- context [mkdir_all env ?d] => destruct (mkdir_all env d)
           end; cbn;
    try done;
    destruct (IsAbs (Path config)); cbn; try done;
    destruct (filepath_Abs env (Path config)) as [v [ea|]]; cbn; try done;
    destruct (rotatelogs_New env _ _); done.
Qed.

(** What is in a logger that [New] returns. *)
Lemma New_success_inv env config l tr :
  New env config = ((Some l, None), tr) →
  ∃ hooks tr1,
    file_hooks env config [] = (Go_on hooks, tr1) ∧
    l = logger_of env config hooks
          (if bool_decide (Kafka config = None) then []
           else [(NewKafkaCore env config (encoderConfig config)).1]).
Proof.
  rewrite New_run, bool_decide_not.
  destruct (file_hooks env config []) as [[hooks|e'] tr']; [|by intros [=]].
  exists hooks, tr'. split; [done|].
  destruct (bool_decide (Kafka config = None)); cbn in *; [by simplify_eq|].
  destruct (NewKafkaCore env config (encoderConfig config)) as [core [e|]];
    by simplify_eq.
Qed.

(** The syncers the block of the log file yields. *)
Lemma file_hooks_success env config hooks tr :
  file_hooks env config [] = (Go_on hooks, tr) →
  hooks =
    (if bool_decide (Path config ≠ "" ∧ MaxSize config ≠ 0)
     then [Lumberjack (Path config) (MaxSize config) (MaxBackups config)
             (MaxAge config) (Compress config)]
     else [])
    ++ (if bool_decide (Path config ≠ "" ∧ RotateDay config ≠ 0)
        then
          [Rotate (rotatelogs_New env (rotate_name env config +:+ ".%Y%m%d")
                     [WithLinkName (rotate_name env config);
                      WithMaxAge (days (MaxAge config));
                      WithRotationTime (days (RotateDay config))]).1]
        else []).
Proof.
  intros Hh. rewrite !bool_decide_and, !bool_decide_not. revert Hh.
  rewrite file_hooks_run. cbn zeta.
  repeat case_match; intros; simplify_eq; cbn; by rewrite ?app_nil_r.
Qed.

(** An event is in a trace that is written out: go through the cases. *)
Local Ltac in_calls :=
  cbn; rewrite ?elem_of_app, ?elem_of_cons, ?elem_of_nil;
  let H := fresh "Hin" in
  intros H; repeat (destruct H as [H|H]); simplify_eq; try done.

(** X10. An error that [New] returns is never of its own making: it is
    the error of [os.MkdirAll] on the directory of [Path], or that of
    [filepath.Abs] on [Path], or that of [NewKafkaCore], as it came; and the
    logger returned with it is nil. *)
Theorem New_error_sources env config r e tr :
  New env config = ((r, Some e), tr) →
  r = None ∧
  ((Path config ≠ "" ∧
    stat_answer env (getDir (Path config)) = Some ENOENT ∧
    mkdir_answer env (getDir (Path config)) = Some e) ∨
   (Path config ≠ "" ∧ RotateDay config ≠ 0 ∧ IsAbs (Path config) = false ∧
    (filepath_Abs env (Path config)).2 = Some e) ∨
   (Kafka config ≠ None ∧
    (NewKafkaCore env config (encoderConfig config)).2 = Some e)).
Proof.
  rewrite New_run.
  destruct (file_hooks env config []) as [[hooks|e'] tr'] eqn:Hh.
  - case_bool_decide as HK; [|by intros [=]].
    destruct (NewKafkaCore env config (encoderConfig config)) as [core [ek|]];
      [|by intros [=]].
    intros [= <- <- <-]. split; [done|]. right; right. done.
  - intros [= <- <- <-]. split; [done|].
    revert Hh. rewrite file_hooks_run. cbn zeta.
    repeat case_match; intros; simplify_eq;
      repeat match goal with
             | H : bool_decide _ = false |- _ => apply bool_decide_eq_false in H
             | H : bool_decide _ = true |- _ => apply bool_decide_eq_true in H
             end;
      try match goal with
          | H : os_IsNotExist ?x = true |- _ => destruct x; try discriminate H
          end;
      first [by left | by right; left].
Qed.

(** X11. When the directory of [Path] is missing and [os.MkdirAll] cannot
    make it, [New] returns that error at once: the two calls [os.Stat] and
    [os.MkdirAll] are all it has done, and neither the rotation nor the
    kafka core is made. *)
Theorem New_stops_at_MkdirAll env config e :
  Path config ≠ "" →
  stat_answer env (getDir (Path config)) = Some ENOENT →
  mkdir_answer env (getDir (Path config)) = Some e →
  New env config =
    ((None, Some e),
     [CallStat (getDir (Path config)); CallMkdirAll (getDir (Path config))]).
Proof.
  intros HP Hs Hm. rewrite New_run, file_hooks_run.
  rewrite (bool_decide_eq_false_2 _ HP). cbn zeta. rewrite Hs. cbn.
  by rewrite Hm.
Qed.

(** X12. A kafka target whose core cannot be made costs the whole logger:
    [New] returns no logger, and the error is that of [NewKafkaCore] unless
    [New] has returned before calling it. *)
Theorem New_kafka_failure env config e :
  Kafka config ≠ None →
  (NewKafkaCore env config (encoderConfig config)).2 = Some e →
  ∃ e',
    (New env config).1 = (None, Some e') ∧
    (e' = e ∨ CallNewKafkaCore ∉ (New env config).2).
Proof.
  intros HK He. rewrite New_run.
  destruct (file_hooks env config []) as [[hooks|e'] tr'] eqn:Hh.
  - rewrite (bool_decide_eq_true_2 _ HK).
    destruct (NewKafkaCore env config (encoderConfig config)) as [core err].
    cbn in He. subst err. cbn. eauto.
  - cbn. exists e'. split; [done|]. right.
    rewrite file_hooks_run in Hh. revert Hh. cbn zeta.
    repeat case_match; intros; simplify_eq; in_calls.
Qed.

(** X13. The syncers of the first core of the logger that [New] returns
    are, in this order: the size-rotated file, when [Path] is set and
    [MaxSize] is not zero; the day-rotated file, when [Path] is set and
    [RotateDay] is not zero; the standard output, unless [DisableStdout].
    The two rotations can be there together.  The day rotation gets the
    pattern [name.%Y%m%d], the link [name] and the two durations in days,
    where [name] is the absolute form of [Path]. *)
Theorem New_syncers env config l tr :
  New env config = ((Some l, None), tr) →
  primary_syncers l =
    Some ((if bool_decide (Path config ≠ "" ∧ MaxSize config ≠ 0)
           then [Lumberjack (Path config) (MaxSize config) (MaxBackups config)
                   (MaxAge config) (Compress config)]
           else [])
          ++ (if bool_decide (Path config ≠ "" ∧ RotateDay config ≠ 0)
              then
                let name := rotate_name env config in
                [Rotate (rotatelogs_New env (name +:+ ".%Y%m%d")
                           [WithLinkName name;
                            WithMaxAge (days (MaxAge config));
                            WithRotationTime (days (RotateDay config))]).1]
              else [])
          ++ (if DisableStdout config then [] else [Stdout])).
Proof.
  intros (hooks & tr1 & Hh & ->)%New_success_inv.
  apply file_hooks_success in Hh as ->. cbn.
  by destruct (DisableStdout config); rewrite <- ?app_assoc, ?app_nil_r.
Qed.

(** X14. The logger that [New] returns fans out to these cores, in this
    order: the core of the files and the standard output, one core for each
    webhook of the configuration in the order they are listed, and last the
    kafka core when a kafka target is set.  The logger keeps the
    configuration, and adds the caller exactly when [Caller] is set. *)
Theorem New_cores env config l tr :
  New env config = ((Some l, None), tr) →
  ∃ enc ws lvl,
    zap_tee (zap l) =
      NewCore enc ws lvl
      :: map (λ cfg, NewWebHookCore env cfg (encoderConfig config))
           (WebHook config)
      ++ (if bool_decide (Kafka config = None) then []
          else [(NewKafkaCore env config (encoderConfig config)).1]) ∧
    zap_caller (zap l) = Caller config ∧
    Log.config l = config.
Proof.
  intros (hooks & tr1 & Hh & ->)%New_success_inv.
  eexists _, _, _. by split_and!.
Qed.

(** X15. With an empty [Path], [New] touches neither the file system nor
    [rotatelogs]; with no kafka target either it cannot fail, and the first
    core writes to the standard output alone, or to nothing at all when
    [DisableStdout] is set. *)
Theorem New_without_path env config :
  Path config = "" →
  (∀ c, c ∈ (New env config).2 → c = CallNewKafkaCore) ∧
  (Kafka config = None →
   ∃ l, New env config = ((Some l, None), []) ∧
        primary_syncers l =
          Some (if DisableStdout config then [] else [Stdout])).
Proof.
  intros HP. rewrite New_run, file_hooks_run.
  rewrite (bool_decide_eq_true_2 _ HP). split.
  - intros c. repeat case_match; in_calls.
  - intros HK. rewrite bool_decide_eq_false_2 by (by intros []).
    eexists. split; [reflexivity|]. by destruct (DisableStdout config).
Qed.

(** The calls of [New] are those of the block of the log file, and then
    at most the call of [NewKafkaCore]. *)
Lemma New_calls env config :
  ∃ k, (New env config).2 = (file_hooks env config []).2 ++ k ∧
       (k = [] ∨ k = [CallNewKafkaCore]).
Proof.
  rewrite New_run.
  destruct (file_hooks env config []) as [[hooks|e] tr]; cbn.
  - destruct (bool_decide (Kafka config ≠ None)).
    + destruct (NewKafkaCore env config (encoderConfig config)) as [core [e|]];
        cbn; eauto.
    + exists []. split; [symmetry; apply app_nil_r | by left].
  - exists []. split; [symmetry; apply app_nil_r | by left].
Qed.

(** The calls of the block of the log file: [os.Stat] on the directory,
    [os.MkdirAll] on it when it is reported missing, and then calls that
    are neither. *)
Lemma file_hooks_calls env config :
  Path config ≠ "" →
  ∃ rest,
    (file_hooks env config []).2 =
      CallStat (getDir (Path config))
      :: (if match stat_answer env (getDir (Path config)) with
             | Some e => os_IsNotExist e
             | None => false
             end
          then [CallMkdirAll (getDir (Path config))] else [])
      ++ rest ∧
    (∀ d, CallMkdirAll d ∉ rest) ∧ (∀ d, CallStat d ∉ rest).
Proof.
  intros HP. rewrite file_hooks_run, (bool_decide_eq_false_2 _ HP). cbn zeta.
  destruct (match stat_answer env (getDir (Path config)) with
            | Some e => os_IsNotExist e
            | None => false
            end);
    repeat case_match; cbn;
    (eexists; split;
     [ rewrite <- ?app_assoc; cbn; reflexivity
     | split; intros d; in_calls ]).
Qed.

(** X16. [New] calls [os.MkdirAll] only on the directory of a [Path] that
    is set, and exactly when [os.Stat] reports that this directory does not
    exist: a directory that is there, or one that [os.Stat] cannot read
    for another reason, is left alone. *)
Theorem New_MkdirAll_iff env config d :
  CallMkdirAll d ∈ (New env config).2 ↔
  Path config ≠ "" ∧ d = getDir (Path config) ∧
  stat_answer env d = Some ENOENT.
Proof.
  destruct (New_calls env config) as (k & -> & Hk).
  destruct (decide (Path config = "")) as [HP|HP].
  { rewrite file_hooks_run, (bool_decide_eq_true_2 _ HP). cbn.
    split; [|by intros [? _]]. destruct Hk as [-> | ->]; in_calls. }
  destruct (file_hooks_calls env config HP) as (rest & -> & Hmk & _).
  rewrite elem_of_app, elem_of_cons, !elem_of_app.
  split.
  - intros [[Hin | [Hin | Hin]] | Hin].
    + discriminate Hin.
    + destruct (stat_answer env (getDir (Path config))) as [[]|] eqn:Hs;
        cbn in Hin; rewrite ?elem_of_cons, ?elem_of_nil in Hin;
        try done.
      destruct Hin as [[= ->]|[]]. done.
    + by apply Hmk in Hin.
    + destruct Hk as [-> | ->]; revert Hin; in_calls.
  - intros (_ & -> & ->). left. right. left. cbn. apply elem_of_cons. by left.
Qed.

(** X17. The level of the first core is the one [UnmarshalText] reads in
    [Level]; a [Level] that is empty or is no level name gives level 0
    (info) and no error. *)
Theorem New_level env config l tr :
  New env config = ((Some l, None), tr) →
  (∀ lv, Level config ≠ "" → UnmarshalText env (Level config) = Some lv →
         primary_level l = Some lv) ∧
  (Level config = "" ∨ UnmarshalText env (Level config) = None →
   primary_level l = Some 0).
Proof.
  intros (hooks & tr1 & Hh & ->)%New_success_inv. cbn.
  unfold ParseLevel. split.
  - intros lv HL ->. by rewrite (bool_decide_eq_true_2 _ HL).
  - intros [-> | ->]; [done|]. by case_bool_decide.
Qed.

(** X18. After an [Init] whose [New] succeeds, [logger] and [sugger] are
    both replaced, whatever they held, and the sugared logger wraps the zap
    logger of the new [logger]. *)
Theorem Init_success env config g l tr :
  New env config = ((Some l, None), tr) →
  Init env config g =
    (None, {| logger := Some l; sugger := Some (Sugar l) |}) ∧
  sugared (Sugar l) = zap l.
Proof. intros HN. unfold Init. by rewrite HN. Qed.

End NewProperties.

(** The kafka broker of the sample host is down. *)
Lemma New_error_sources_witness :
  Log.New Sample.host Sample.kafka_config =
    ((None, Some Sample.no_broker),
     [Log.CallStat "/var/log"; Log.CallNewKafkaCore]) ∧
  Log.Kafka Sample.kafka_config ≠ None ∧
  (Log.NewKafkaCore Sample.host Sample.kafka_config
     (Log.encoderConfig Sample.kafka_config)).2 = Some Sample.no_broker.
Proof.
  split; [reflexivity|].
  destruct (New_error_sources Sample.host Sample.kafka_config _ _ _ eq_refl)
    as [_ [(_ & _ & H) | [(_ & H & _) | H]]].
  - discriminate H.
  - destruct H. reflexivity.
  - exact H.
Defined.

(** On the read-only host [/srv/logs] is missing and cannot be made. *)
Lemma New_stops_at_MkdirAll_witness :
  Log.New Sample.host_readonly Sample.srv_config =
    ((None, Some (PathError "mkdir" "/srv/logs" EACCES)),
     [Log.CallStat "/srv/logs"; Log.CallMkdirAll "/srv/logs"]).
Proof.
  apply (New_stops_at_MkdirAll Sample.host_readonly Sample.srv_config);
    [discriminate | reflexivity | reflexivity].
Defined.

Lemma New_kafka_failure_witness :
  ∃ e',
    (Log.New Sample.host Sample.kafka_config).1 = (None, Some e') ∧
    (e' = Sample.no_broker ∨
     Log.CallNewKafkaCore ∉ (Log.New Sample.host Sample.kafka_config).2).
Proof.
  apply (New_kafka_failure Sample.host Sample.kafka_config);
    [discriminate | reflexivity].
Defined.

(** Both rotations and the standard output. *)
Lemma New_syncers_witness :
  ∃ l,
    Log.New Sample.host Sample.srv_config =
      ((Some l, None),
       [Log.CallStat "/srv/logs"; Log.CallMkdirAll "/srv/logs";
        Log.CallRotatelogsNew "/srv/logs/app.log.%Y%m%d"]) ∧
    Log.primary_syncers l =
      Some [Log.Lumberjack "/srv/logs/app.log" 10 0 7 false;
            Log.Rotate
              (Some {| Log.rotate_pattern := "/srv/logs/app.log.%Y%m%d";
                       Log.rotate_options :=
                         [Log.WithLinkName "/srv/logs/app.log";
                          Log.WithMaxAge 604800000000000;
                          Log.WithRotationTime 86400000000000] |});
            Log.Stdout].
Proof.
  eexists. split; [reflexivity|].
  exact (New_syncers Sample.host Sample.srv_config _ _ eq_refl).
Defined.

(** Two webhooks, in the order of the configuration. *)
Lemma New_cores_witness :
  ∃ l enc ws lvl,
    Log.New Sample.host Sample.webhook_config = ((Some l, None), []) ∧
    Log.zap_tee (Log.zap l) =
      [Log.NewCore enc ws lvl; Log.Delivery "telegram";
       Log.Delivery "dingding"] ∧
    Log.zap_caller (Log.zap l) = true ∧
    Log.config l = Sample.webhook_config.
Proof.
  eexists.
  destruct (New_cores Sample.host Sample.webhook_config _ _ eq_refl)
    as (enc & ws & lvl & H1 & H2 & H3).
  exists enc, ws, lvl. split; [reflexivity|]. by split_and!.
Defined.

Lemma New_without_path_witness :
  ∃ l,
    Log.New Sample.host (Sample.stdout_config "json") = ((Some l, None), []) ∧
    Log.primary_syncers l = Some [Log.Stdout].
Proof.
  exact (proj2 (New_without_path Sample.host (Sample.stdout_config "json")
                  eq_refl) eq_refl).
Defined.

(** "debug" is a level of the sample host, "verbose" is none. *)
Lemma New_level_witness :
  ∃ l l',
    Log.New Sample.host (Sample.stdout_config "json") = ((Some l, None), []) ∧
    Log.primary_level l = Some (-1) ∧
    Log.New Sample.host Sample.webhook_config = ((Some l', None), []) ∧
    Log.primary_level l' = Some 0.
Proof.
  eexists _, _. split; [reflexivity|]. split.
  - exact (proj1 (New_level Sample.host (Sample.stdout_config "json") _ _
                    eq_refl) _ ltac:(discriminate) eq_refl).
  - split; [reflexivity|].
    exact (proj2 (New_level Sample.host Sample.webhook_config _ _ eq_refl)
             (or_intror eq_refl)).
Defined.

Lemma Init_success_witness :
  ∃ l,
    Log.New Sample.host (Sample.stdout_config "json") = ((Some l, None), []) ∧
    Log.Init Sample.host (Sample.stdout_config "json") Sample.globals0 =
      (None, {| Log.logger := Some l; Log.sugger := Some (Log.Sugar l) |}) ∧
    Log.sugared (Log.Sugar l) = Log.zap l.
Proof.
  eexists. split; [reflexivity|].
  exact (Init_success Sample.host (Sample.stdout_config "json")
           Sample.globals0 _ _ eq_refl).
Defined.

Section PathProperties.
Import Log.

Lemma Split_not_nil (s : string) (sep : ascii) : Split s sep ≠ [].
Proof.
  destruct s as [|c s]; cbn; [done|].
  case_bool_decide; [done|]. by destruct (Split s sep).
Qed.

(** [strings.Join] undoes [strings.Split]. *)
Lemma Join_Split (s : string) (sep : ascii) :
  Join (Split s sep) (String sep "") = s.
Proof.
  induction s as [|c s IH]; cbn; [done|].
  pose proof (Split_not_nil s sep) as Hne.
  case_bool_decide as Hc.
  - subst c. destruct (Split s sep) as [|h t] eqn:Hs; [done|].
    cbn in IH |- *. by rewrite IH.
  - destruct (Split s sep) as [|h t] eqn:Hs; [done|].
    destruct t as [|h' t]; cbn in IH |- *; by rewrite <- IH.
Qed.

(** No element of [strings.Split] contains the separator. *)
Lemma Split_elements (s : string) (sep : ascii) :
  Forall (λ x, ¬ Contains x (String sep "")) (Split s sep).
Proof.
  induction s as [|c s IH]; cbn.
  - constructor; [|constructor]. intros ([|? ?] & ? & [=]).
  - case_bool_decide as Hc.
    + constructor; [|done]. intros ([|? ?] & ? & [=]).
    + destruct (Split s sep) as [|h t] eqn:Hs;
        [by destruct (Split_not_nil s sep)|].
      inversion IH as [|?? Hh Ht]; subst.
      constructor; [|done].
      intros ([|y pre] & post & H).
      * injection H as -> _. done.
      * injection H as _ ->. apply Hh. by exists pre, post.
Qed.

(** A string that contains the separator splits in two elements or more. *)
Lemma Split_two (s : string) (sep : ascii) :
  Contains s (String sep "") → (2 ≤ length (Split s sep))%nat.
Proof.
  intros Hc. destruct (Split s sep) as [|h [|h' t]] eqn:Hs; cbn; try lia.
  - by destruct (Split_not_nil s sep).
  - pose proof (Join_Split s sep) as HJ. rewrite Hs in HJ. cbn in HJ. subst h.
    pose proof (Split_elements s sep) as HF. rewrite Hs in HF.
    by inversion HF.
Qed.

(** [strings.Join] of a slice and its last element. *)
Lemma Join_snoc (l : list string) (x sep : string) :
  l ≠ [] → Join (l ++ [x]) sep = Join l sep +:+ sep +:+ x.
Proof.
  induction l as [|a l IH]; [done|]. intros _.
  destruct l as [|b l]; [done|].
  change (Join ((a :: b :: l) ++ [x]) sep)
    with (a +:+ sep +:+ Join ((b :: l) ++ [x]) sep).
  rewrite IH by done.
  change (Join (a :: b :: l) sep) with (a +:+ sep +:+ Join (b :: l) sep).
  by rewrite !append_assoc.
Qed.

(** A list of two elements or more is its front and its last element. *)
Lemma front_last (l : list string) :
  (2 ≤ length l)%nat →
  ∃ x, l = take (length l - 1) l ++ [x] ∧ take (length l - 1) l ≠ [].
Proof.
  intros Hl. destruct (decide (l = [])) as [->|Hne]; [cbn in Hl; lia|].
  destruct (exists_last Hne) as (front & x & ->).
  exists x. rewrite length_app. cbn [length].
  replace (length front + 1 - 1)%nat with (length front) by lia.
  rewrite take_app_length. split; [done|].
  rewrite length_app in Hl. cbn in Hl. destruct front; [cbn in Hl; lia|done].
Qed.

(** The elements of a path with a slash: those before the last, which
    are there, and the last, which has no slash. *)
Lemma Split_front_last (path : string) :
  Contains path "/" →
  ∃ name,
    Split path "/" =
      take (length (Split path "/") - 1) (Split path "/") ++ [name] ∧
    take (length (Split path "/") - 1) (Split path "/") ≠ [] ∧
    ¬ Contains name "/".
Proof.
  intros Hc.
  pose proof (Split_two path "/" Hc) as H2.
  destruct (front_last _ H2) as (name & Hl & Hne).
  exists name. split_and!; [done..|].
  pose proof (Split_elements path "/") as HF. rewrite Hl in HF.
  apply Forall_app in HF as [_ HF]. by inversion HF.
Qed.

(** Whether a string contains a byte can be decided. *)
Lemma Contains_byte_dec (s : string) (c : ascii) :
  Contains s (String c "") ∨ ¬ Contains s (String c "").
Proof.
  induction s as [|x s IH].
  - right. intros ([|? ?] & ? & [=]).
  - destruct (decide (x = c)) as [->|Hx]; [left; by exists "", s|].
    destruct IH as [IH|IH]; [left; by apply Contains_tail|].
    right. intros ([|y pre] & post & H).
    + by injection H as -> _.
    + injection H as _ ->. apply IH. by exists pre, post.
Qed.

(** X19. [getDir] takes off the last component and the slash before it:
    a path that has a slash is [getDir] of it, a slash, and a name without
    slash. *)
Theorem getDir_splits (path : string) :
  Contains path "/" →
  ∃ name, ¬ Contains name "/" ∧ path = getDir path +:+ "/" +:+ name.
Proof.
  intros (name & Hl & Hne & Hn)%Split_front_last.
  exists name. split; [done|]. unfold getDir.
  rewrite <- (Join_snoc _ _ _ Hne), <- Hl. symmetry. apply Join_Split.
Qed.

(** X20. [getDir] is the empty string exactly for a path without slash
    and for a path whose only slash is its first byte: a bare file name, or
    a file in the root directory. *)
Theorem getDir_empty_iff (path : string) :
  getDir path = "" ↔
  ¬ Contains path "/" ∨
  ∃ name, path = "/" +:+ name ∧ ¬ Contains name "/".
Proof.
  split.
  - intros Hd. destruct (Contains_byte_dec path "/") as [Hc|Hc]; [|by left].
    right. destruct (Split_front_last path Hc) as (name & Hl & Hne & Hn).
    exists name. split; [|done].
    rewrite <- (Join_Split path "/"), Hl, (Join_snoc _ _ _ Hne).
    unfold getDir in Hd. by rewrite Hd.
  - intros [Hc | (name & -> & Hn)]; [by apply getDir_bare|].
    unfold getDir.
    change (Split ("/" +:+ name) "/") with ("" :: Split name "/").
    by rewrite (Split_without_sep _ _ Hn).
Qed.

(** X21. A log file in the root directory is refused like a bare file
    name: for [Path] a slash and a name without slash, [New] calls
    [os.Stat] and [os.MkdirAll] on the empty path and returns the error of
    [MkdirAll] and no logger. *)
Theorem New_root_file env config name :
  Path config = "/" +:+ name →
  ¬ Contains name "/" →
  New env config =
    ((None, Some (PathError "mkdir" "" ENOENT)),
     [CallStat ""; CallMkdirAll ""]).
Proof.
  intros HP Hn. apply New_bare.
  - by rewrite HP.
  - rewrite HP. unfold getDir.
    change (Split ("/" +:+ name) "/") with ("" :: Split name "/").
    by rewrite (Split_without_sep _ _ Hn).
Qed.

End PathProperties.

Lemma getDir_splits_witness :
  ∃ name,
    ¬ Contains name "/" ∧
    "/var/log/app.log" = Log.getDir "/var/log/app.log" +:+ "/" +:+ name.
Proof.
  apply (getDir_splits "/var/log/app.log").
  by exists "", "var/log/app.log".
Defined.

Lemma New_root_file_witness :
  Log.New Sample.host Sample.root_config =
    ((None, Some (PathError "mkdir" "" ENOENT)),
     [Log.CallStat ""; Log.CallMkdirAll ""]).
Proof.
  apply (New_root_file Sample.host Sample.root_config "app.log");
    [reflexivity | apply not_Contains_byte; reflexivity].
Defined.

Section DurationProperties.
Import Log.

Lemma wrap64_id_iff (z : Z) : wrap64 z = z ↔ - 2 ^ 63 ≤ z < 2 ^ 63.
Proof.
  unfold wrap64. split.
  - intros H. pose proof (Z.mod_pos_bound (z + 2 ^ 63) (2 ^ 64)). lia.
  - intros H. rewrite Z.mod_small; lia.
Qed.

(** X22. The durations in days that [New] hands to [rotatelogs] are exact
    up to 106751 days and no further: for an [int] of 64 bits,
    [time.Hour*24*time.Duration(n)] is [n] days exactly when [n] is between
    -106751 and 106751; beyond, the product wraps around. *)
Theorem days_exact_iff (n : Z) :
  - 2 ^ 63 ≤ n < 2 ^ 63 →
  days n = 86400000000000 * n ↔ -106751 ≤ n ≤ 106751.
Proof.
  intros Hn. unfold days, mul64.
  replace (wrap64 n) with n by (symmetry; by apply wrap64_id_iff).
  replace (wrap64 (Hour * 24)) with 86400000000000 by reflexivity.
  rewrite wrap64_id_iff. lia.
Qed.

End DurationProperties.

Lemma days_exact_iff_witness :
  Log.days 106751 = 86400000000000 * 106751 ∧
  Log.days 106752 ≠ 86400000000000 * 106752.
Proof.
  split.
  - apply (days_exact_iff 106751); lia.
  - intros H. apply (days_exact_iff 106752) in H; lia.
Defined.

Section FieldsProperties.
Import Log.

(** After the loop [for k, v := range src { dst[k] = v }], a key of [src]
    has the value of [src], any other key what [dst] had. *)
Lemma range_assign_lookup (dst src : gmap string string) (k : string) :
  range_assign dst src !! k =
    match src !! k with Some v => Some v | None => dst !! k end.
Proof.
  unfold range_assign.
  apply (map_fold_weak_ind
           (λ r m, r !! k = match m !! k with
                            | Some v => Some v | None => dst !! k end)).
  - by rewrite lookup_empty.
  - intros i x m r Hi IH.
    destruct (decide (i = k)) as [->|Hne].
    + by rewrite !lookup_insert_eq.
    + by rewrite !lookup_insert_ne.
Qed.

(** X23. In the map [CombineFields] returns, a key of [src2] has the
    value of [src2], a key of [src] alone the value of [src], and a key of
    neither is absent: on a key of both, [src2] wins. *)
Theorem CombineFields_lookup (src src2 : gmap string string) (k : string) :
  CombineFields src src2 !! k =
    match src2 !! k with Some v => Some v | None => src !! k end.
Proof.
  unfold CombineFields. cbn zeta. rewrite !range_assign_lookup, lookup_empty.
  by destruct (src2 !! k), (src !! k).
Qed.

(** X24. [AddFields] writes the entries of [fs] over the fields of the
    configuration and keeps the others; adding [a] and then [b] is adding
    [CombineFields a b] at once. *)
Theorem AddFields_lookup (c : Config) (a b : gmap string string) (k : string) :
  Fields (AddFields c a) !! k =
    match a !! k with Some v => Some v | None => Fields c !! k end ∧
  Fields (AddFields (AddFields c a) b) = Fields (AddFields c (CombineFields a b)).
Proof.
  split; [apply range_assign_lookup|].
  apply map_eq. intros i. cbn. unfold CombineFields. cbn zeta.
  rewrite !range_assign_lookup, lookup_empty.
  by destruct (b !! i), (a !! i).
Qed.

(** X25. [New] does not read [Fields]: with no kafka target, adding
    fields to a configuration changes neither the calls [New] makes, nor
    its error, nor the zap logger it builds. *)
Theorem New_ignores_Fields env (c : Config) (fs : gmap string string) :
  Kafka c = None →
  (New env (AddFields c fs)).2 = (New env c).2 ∧
  (New env (AddFields c fs)).1.2 = (New env c).1.2 ∧
  zap <$> (New env (AddFields c fs)).1.1 = zap <$> (New env c).1.1.
Proof.
  intros HK. rewrite !New_run.
  change (file_hooks env (AddFields c fs) []) with (file_hooks env c []).
  change (Kafka (AddFields c fs)) with (Kafka c).
  rewrite HK, bool_decide_eq_false_2 by (by intros []).
  by destruct (file_hooks env c []) as [[hooks|e] tr].
Qed.

End FieldsProperties.

Lemma New_ignores_Fields_witness :
  (Log.New Sample.host
     (Log.AddFields Sample.srv_config {[ "service" := "api" ]})).2 =
    (Log.New Sample.host Sample.srv_config).2 ∧
  (Log.New Sample.host
     (Log.AddFields Sample.srv_config {[ "service" := "api" ]})).1.2 =
    (Log.New Sample.host Sample.srv_config).1.2 ∧
  Log.zap <$> (Log.New Sample.host
                 (Log.AddFields Sample.srv_config {[ "service" := "api" ]})).1.1 =
    Log.zap <$> (Log.New Sample.host Sample.srv_config).1.1.
Proof.
  exact (New_ignores_Fields Sample.host Sample.srv_config
           {[ "service" := "api" ]} eq_refl).
Defined.

Section EncoderProperties.
Import Log.

(** X26. Whatever the format, the encoder of the first core has an empty
    time key exactly when [ForbitTime] is set and an empty level key
    exactly when [ForbitLevel] is set; the four other keys are the same in
    every configuration. *)
Theorem New_forbidden_keys env config l tr enc :
  New env config = ((Some l, None), tr) →
  primary_encoder l = Some enc →
  (TimeKey (encoder_config enc) = "" ↔ ForbitTime config = true) ∧
  (LevelKey (encoder_config enc) = "" ↔ ForbitLevel config = true) ∧
  MessageKey (encoder_config enc) = "msg" ∧
  NameKey (encoder_config enc) = "logger" ∧
  CallerKey (encoder_config enc) = "caller" ∧
  StacktraceKey (encoder_config enc) = "stacktrace".
Proof.
  intros (hooks & lvl & rest & Hl)%New_primary.
  unfold primary_encoder. rewrite Hl. intros [= <-].
  assert (He : encoder_config
                 (select_encoder env (Format config) (encoderConfig config))
               = encoderConfig config).
  { unfold select_encoder. by repeat case_bool_decide. }
  rewrite He. unfold encoderConfig. cbn.
  by destruct (ForbitTime config), (ForbitLevel config).
Qed.

End EncoderProperties.

Lemma New_forbidden_keys_witness :
  ∃ l enc,
    Log.New Sample.host Sample.webhook_config = ((Some l, None), []) ∧
    Log.primary_encoder l = Some enc ∧
    (Log.TimeKey (Log.encoder_config enc) = "" ↔ false = true) ∧
    (Log.LevelKey (Log.encoder_config enc) = "" ↔ false = true) ∧
    Log.MessageKey (Log.encoder_config enc) = "msg" ∧
    Log.NameKey (Log.encoder_config enc) = "logger" ∧
    Log.CallerKey (Log.encoder_config enc) = "caller" ∧
    Log.StacktraceKey (Log.encoder_config enc) = "stacktrace".
Proof.
  eexists _, _. split; [reflexivity|]. split; [reflexivity|].
  exact (New_forbidden_keys Sample.host Sample.webhook_config _ _ _
           eq_refl eq_refl).
Defined.
